(** * Shallow embedding of [run_production.py] (adrata-pipelines)

    The script loads company rows from a CSV file, posts them to one remote
    endpoint in three fixed batches, writes the result rows of each batch to
    a CSV file and finally writes a summary.

    Modelling choices.
    - Python [str] is [string]; only the ASCII letters are cased, so the
      embedding is exact on ASCII text.
    - The input file is the sequence of rows [csv.reader] yields (lists of
      cells); [csv.DictReader] is embedded on top of it, with its [None]
      cells for short data lines.
    - A parsed JSON value is a [json]; the operations the script applies to
      it ([in], indexing, [len], truth value, [keys], iteration) are
      embedded with the exceptions they raise on the other kinds of value.
    - Python exceptions are values of [exn]; a computation that can raise
      returns a [result].
    - The effects of [run_single_pipeline] and [main] (clock readings, the
      [curl] subprocess, file writes) are threaded through a state monad
      [M] that records them in a trace; the clock, the [curl] subprocess,
      [json.loads] and the input files are fields of [Env].  [subprocess.run]
      and [json.loads] return a value or raise.
    - A double is the rational it denotes.  The float operations the script
      applies to clock readings (subtraction, division, [round(x, 1)]) are
      fields of [Env] too: their rounding is the library's, not modelled
      here.
    - Opening a file for writing and printing to the console are assumed to
      succeed.  Console output is not recorded, but every sub-expression of
      a [print] that can raise is evaluated. *)

From Stdlib Require Import ZArith QArith Qround String Ascii List Lia.
From stdpp Require Import base option list gmap strings.

Open Scope string_scope.

(** ** Python strings *)

Module PyStr.

Definition is_upper (c : ascii) : bool :=
  let n := nat_of_ascii c in (65 <=? n)%nat && (n <=? 90)%nat.

Definition is_lower (c : ascii) : bool :=
  let n := nat_of_ascii c in (97 <=? n)%nat && (n <=? 122)%nat.

(** [_PyUnicode_IsCased] on ASCII. *)
Definition is_cased (c : ascii) : bool := is_upper c || is_lower c.

Definition upper (c : ascii) : ascii :=
  if is_lower c then ascii_of_nat (nat_of_ascii c - 32) else c.

Definition lower (c : ascii) : ascii :=
  if is_upper c then ascii_of_nat (nat_of_ascii c + 32) else c.

(** [str.isspace] on ASCII: space, \t \n \v \f \r and the separators
    0x1c-0x1f. *)
Definition is_space (c : ascii) : bool :=
  let n := nat_of_ascii c in
  (n =? 32)%nat || ((9 <=? n)%nat && (n <=? 13)%nat)
  || ((28 <=? n)%nat && (n <=? 31)%nat).

Fixpoint drop_chars (n : nat) (s : string) : string :=
  match n, s with
  | O, _ => s
  | S _, EmptyString => EmptyString
  | S k, String _ s' => drop_chars k s'
  end.

(** The scan of [str.replace old new] for a non-empty [old]: left to right,
    occurrences do not overlap.  [skip] counts the characters of the current
    occurrence that are still to be consumed. *)
Fixpoint replace_scan (old new : string) (skip : nat) (s : string) : string :=
  match s with
  | EmptyString => EmptyString
  | String c s' =>
      match skip with
      | S k => replace_scan old new k s'
      | O =>
          if String.prefix old s
          then new +:+ replace_scan old new (String.length old - 1) s'
          else String c (replace_scan old new 0 s')
      end
  end.

(** [str.replace] with an empty [old] puts [new] around every character. *)
Fixpoint interleave (new s : string) : string :=
  match s with
  | EmptyString => new
  | String c s' => new +:+ String c (interleave new s')
  end.

Definition replace (old new s : string) : string :=
  match old with
  | EmptyString => interleave new s
  | String _ _ => replace_scan old new 0 s
  end.

(** [str.split(sep)] for a one-character separator; the result is never
    empty. *)
Fixpoint split (sep : ascii) (s : string) : list string :=
  match s with
  | EmptyString => [EmptyString]
  | String c s' =>
      if Ascii.eqb c sep then EmptyString :: split sep s'
      else match split sep s' with
           | [] => [String c EmptyString]
           | w :: ws => String c w :: ws
           end
  end.

(** The loop of CPython's [do_title]: a character that follows a cased one is
    lowered, any other is title-cased. *)
Fixpoint title_from (previous_is_cased : bool) (s : string) : string :=
  match s with
  | EmptyString => EmptyString
  | String c s' =>
      String (if previous_is_cased then lower c else upper c)
             (title_from (is_cased c) s')
  end.

Definition title (s : string) : string := title_from false s.

(** Substring test, [sub in s]. *)
Fixpoint contains (sub s : string) : bool :=
  String.prefix sub s ||
  match s with
  | EmptyString => false
  | String _ s' => contains sub s'
  end.

End PyStr.

(** ** Exceptions and results *)

Inductive exn : Type :=
| KeyError (key : string)
| KeyErrorInt (key : Z)
| AttributeError (attr : string)
| TypeError
| ValueError
| IndexError
| FileNotFoundError (path : string)
| JSONDecodeError
| RecursionError
| UnicodeDecodeError.

Inductive result (A : Type) : Type :=
| Ok (a : A)
| Raise (e : exn).
Arguments Ok {A} a.
Arguments Raise {A} e.

(** [result] is the exception monad; [x ← c; k] runs [k] unless [c] raised. *)
#[global] Instance result_ret : MRet result := fun A a => Ok a.
#[global] Instance result_bind : MBind result := fun A B k r =>
  match r with
  | Ok a => k a
  | Raise e => Raise e
  end.

(** ** Record Loader *)

(** A cell of a [DictReader] row: a string, or Python's [None] ([restval]). *)
Definition cell : Type := option string.

Record Record_ : Type := mkRecord {
  companyName : string;
  domain : string;
  accountOwner : cell
}.

(** [dict(zip(fieldnames, row))]: a later binding of a key replaces an
    earlier one. *)
Definition dict_zip (fieldnames row : list string) : gmap string cell :=
  foldl (fun d kv => <[kv.1 := Some kv.2]> d) ∅ (zip fieldnames row).

(** [DictReader.__next__] for one non-blank row.  The surplus cells of a long
    row are stored under the key [None] ([restkey]), which is not a string and
    is left out; the missing cells of a short row are [None]. *)
Definition dict_row (fieldnames row : list string) : gmap string cell :=
  let d := dict_zip fieldnames row in
  let lf := length fieldnames in
  let lr := length row in
  if (lf <? lr)%nat then d
  else foldl (fun d key => <[key := None]> d) d (drop lr fieldnames).

Definition is_blank (row : list string) : bool :=
  match row with [] => true | _ => false end.

(** [csv.DictReader(f)]: the first row is the header, blank rows are
    skipped. *)
Definition DictReader (lines : list (list string)) : list (gmap string cell) :=
  match lines with
  | [] => []
  | fieldnames :: rest =>
      map (dict_row fieldnames) (List.filter (fun r => negb (is_blank r)) rest)
  end.

(** [row[key]]. *)
Definition getitem (row : gmap string cell) (key : string) : result cell :=
  match row !! key with
  | Some v => Ok v
  | None => Raise (KeyError key)
  end.

(** Line 18, on a string. *)
Definition company_name (website : string) : string :=
  PyStr.title
    (hd EmptyString
       (PyStr.split "."
          (PyStr.replace "www." ""
             (PyStr.replace "http://" ""
                (PyStr.replace "https://" "" website))))).

(** Lines 17-23: the body of the loop. *)
Definition row_to_record (row : gmap string cell) : result Record_ :=
  website ← getitem row "Website";
  match website with
  | None => Raise (AttributeError "replace")
  | Some w =>
      let company_name := company_name w in
      owner ← getitem row "Account Owner";
      Ok (mkRecord company_name w owner)
  end.

(** [limit and i >= limit]: [None] and [0] are falsy. *)
Definition limit_reached (limit : option Z) (i : Z) : bool :=
  match limit with
  | None => false
  | Some l => if (l =? 0)%Z then false else (l <=? i)%Z
  end.

(** The [for i, row in enumerate(reader)] loop with its accumulator. *)
Fixpoint load_loop (limit : option Z) (i : Z) (rows : list (gmap string cell))
    (companies : list Record_) : result (list Record_) :=
  match rows with
  | [] => Ok companies
  | row :: rest =>
      if limit_reached limit i then Ok companies
      else
        r ← row_to_record row;
        load_loop limit (i + 1)%Z rest (companies ++ [r])%list
  end.

Definition load_companies (files : gmap string (list (list string)))
    (filename : string) (limit : option Z) : result (list Record_) :=
  match files !! filename with
  | None => Raise (FileNotFoundError filename)
  | Some lines => load_loop limit 0 (DictReader lines) []
  end.

(** [mapM] in [result]: the records of the rows, or the first exception. *)
Fixpoint traverse {A B : Type} (f : A -> result B) (l : list A) : result (list B) :=
  match l with
  | [] => Ok []
  | x :: xs => y ← f x; ys ← traverse f xs; Ok (y :: ys)
  end.

(** ** JSON values, as [json.loads] returns them *)

#[local] Set Warnings "-register-all".

(** A [JObj] keeps the pairs of the document in order; the Python [dict]
    built from them is read through [dict_keys] and [dict_get]. *)
Inductive json : Type :=
| JNull
| JBool (b : bool)
| JInt (z : Z)
| JFloat (q : Q)
| JStr (s : string)
| JArr (items : list json)
| JObj (pairs : list (string * json)).

(** Keys in insertion order: a repeated key keeps its first position. *)
Fixpoint dict_keys (pairs : list (string * json)) : list string :=
  match pairs with
  | [] => []
  | (k, _) :: rest => k :: List.filter (fun k' => negb (String.eqb k' k)) (dict_keys rest)
  end.

(** A repeated key keeps its last value. *)
Fixpoint dict_get (pairs : list (string * json)) (key : string) : option json :=
  match pairs with
  | [] => None
  | (k, v) :: rest =>
      match dict_get rest key with
      | Some v' => Some v'
      | None => if String.eqb k key then Some v else None
      end
  end.

(** [len(v)]. *)
Definition py_len (v : json) : result nat :=
  match v with
  | JStr s => Ok (String.length s)
  | JArr items => Ok (length items)
  | JObj pairs => Ok (length (dict_keys pairs))
  | _ => Raise TypeError
  end.

Definition is_str (key : string) (v : json) : bool :=
  match v with
  | JStr s => String.eqb s key
  | _ => false
  end.

(** [key in v] for a string [key]. *)
Definition py_in (key : string) (v : json) : result bool :=
  match v with
  | JObj pairs => Ok (bool_decide (is_Some (dict_get pairs key)))
  | JArr items => Ok (existsb (is_str key) items)
  | JStr s => Ok (PyStr.contains key s)
  | _ => Raise TypeError
  end.

(** [v[key]] for a string [key]. *)
Definition py_getitem (v : json) (key : string) : result json :=
  match v with
  | JObj pairs =>
      match dict_get pairs key with
      | Some x => Ok x
      | None => Raise (KeyError key)
      end
  | _ => Raise TypeError
  end.

(** [v[0]]; the keys of a parsed object are strings, never [0]. *)
Definition py_getitem_0 (v : json) : result json :=
  match v with
  | JArr (x :: _) => Ok x
  | JArr [] => Raise IndexError
  | JStr (String c _) => Ok (JStr (String c EmptyString))
  | JStr EmptyString => Raise IndexError
  | JObj _ => Raise (KeyErrorInt 0)
  | _ => Raise TypeError
  end.

(** [v.keys()]. *)
Definition py_keys (v : json) : result (list string) :=
  match v with
  | JObj pairs => Ok (dict_keys pairs)
  | _ => Raise (AttributeError "keys")
  end.

(** Truth value, [if v:]. *)
Definition truthy (v : json) : bool :=
  match v with
  | JNull => false
  | JBool b => b
  | JInt z => negb (z =? 0)%Z
  | JFloat q => negb (Qeq_bool q 0)
  | JStr s => negb (String.eqb s "")
  | JArr items => match items with [] => false | _ => true end
  | JObj pairs => match pairs with [] => false | _ => true end
  end.

Fixpoint chars (s : string) : list json :=
  match s with
  | EmptyString => []
  | String c s' => JStr (String c EmptyString) :: chars s'
  end.

(** Iteration, [for x in v]. *)
Definition py_iter (v : json) : result (list json) :=
  match v with
  | JArr items => Ok items
  | JStr s => Ok (chars s)
  | JObj pairs => Ok (map JStr (dict_keys pairs))
  | _ => Raise TypeError
  end.

(** ** Result Materializer: [csv.DictWriter] *)

(** [DictWriter._dict_to_list] with [extrasaction='raise'] and
    [restval='']. *)
Definition dict_to_list (fieldnames : list string) (rowdict : json)
    : result (list json) :=
  keys ← py_keys rowdict;
  let wrong_fields :=
    List.filter (fun k => negb (existsb (String.eqb k) fieldnames)) keys in
  match wrong_fields with
  | _ :: _ => Raise ValueError
  | [] =>
      match rowdict with
      | JObj pairs =>
          Ok (map (fun key => default (JStr "") (dict_get pairs key)) fieldnames)
      | _ => Raise (AttributeError "get")
      end
  end.

(** [writerows]: the lines written so far, and the exception that stopped
    the loop if there is one. *)
Fixpoint writerows (fieldnames : list string) (rowdicts : list json)
    (written : list (list json)) : list (list json) * result unit :=
  match rowdicts with
  | [] => (written, Ok tt)
  | rowdict :: rest =>
      match dict_to_list fieldnames rowdict with
      | Raise e => (written, Raise e)
      | Ok line => writerows fieldnames rest (written ++ [line])
      end
  end.

(** Lines 58-61: what the opened file holds when the [with] block is left,
    normally or by an exception. *)
Definition csv_lines (results : json) : list (list json) * result unit :=
  match py_getitem_0 results with
  | Raise e => ([], Raise e)
  | Ok first =>
      match py_keys first with
      | Raise e => ([], Raise e)
      | Ok fieldnames =>
          let header := map JStr fieldnames in
          match py_iter results with
          | Raise e => ([header], Raise e)
          | Ok rowdicts => writerows fieldnames rowdicts [header]
          end
      end
  end.

(** ** The world of a run *)

(** [subprocess.CompletedProcess]. *)
Record CompletedProcess : Type := mkCompleted {
  returncode : Z;
  stdout : string;
  stderr : string
}.

(** What the run cannot decide: the [n]-th reading of [time.time()]; the
    outcome of the [n]-th [subprocess.run] of [curl] on the payload it posts,
    a [CompletedProcess] or an exception (such as [UnicodeDecodeError] on
    output that is not text); [json.loads], which returns a value or raises
    [JSONDecodeError] or another exception (such as [RecursionError]); the
    files that exist when the run starts, each as the rows [csv.reader]
    yields for it; and the float operations [a - b], [a / b] and
    [round(x, 1)]. *)
Record Env : Type := mkEnv {
  clock : nat -> Q;
  curl : nat -> string -> list Record_ -> result CompletedProcess;
  json_loads : string -> result json;
  files : gmap string (list (list string));
  fsub : Q -> Q -> Q;
  fdiv : Q -> Q -> Q;
  round1 : Q -> Q
}.

(** The summary dictionary of lines 103-108. *)
Record Summary : Type := mkSummary {
  core : nat;
  advanced : nat;
  powerhouse : nat;
  total_time_minutes : Q
}.

Inductive file_data : Type :=
| PayloadJson (pipeline : string) (companies : list Record_)
| CsvOut (lines : list (list json))
| SummaryJson (summary : Summary).

Inductive event : Type :=
| EvMkdir (path : string)
| EvWrite (path : string) (data : file_data)
| EvCurl (payload_file : string) (pipeline : string) (companies : list Record_).

Record State : Type := mkState {
  ticks : nat;
  calls : nat;
  trace : list event
}.

Definition initial : State := mkState 0 0 [].

(** State and exceptions: the state reached when an exception is raised is
    kept. *)
Definition M (A : Type) : Type := State -> State * result A.

#[global] Instance M_ret : MRet M := fun A a st => (st, Ok a).
#[global] Instance M_bind : MBind M := fun A B k c st =>
  match c st with
  | (st', Ok a) => k a st'
  | (st', Raise e) => (st', Raise e)
  end.

Definition lift {A : Type} (r : result A) : M A := fun st => (st, r).

Definition emit (e : event) : M unit := fun st =>
  (mkState (ticks st) (calls st) (trace st ++ [e]), Ok tt).

(** [time.time()]. *)
Definition time_time (env : Env) : M Q := fun st =>
  (mkState (S (ticks st)) (calls st) (trace st), Ok (clock env (ticks st))).

(** [subprocess.run(['curl', ..., '-d', '@' + temp_file, ...])]: runs [curl]
    on the payload held by [temp_file]; returns the completed process or
    raises. *)
Definition subprocess_run_curl (env : Env) (temp_file pipeline : string)
    (companies : list Record_) : M CompletedProcess := fun st =>
  (mkState (ticks st) (S (calls st))
           (trace st ++ [EvCurl temp_file pipeline companies]),
   curl env (calls st) pipeline companies).

(** [try: body except json.JSONDecodeError: handler]. *)
Definition try_except_JSONDecodeError {A : Type} (body handler : M A) : M A :=
  fun st =>
    match body st with
    | (st', Raise JSONDecodeError) => handler st'
    | other => other
    end.

(** ** Batch Submitter *)

Definition temp_file_of (pipeline_type : string) : string :=
  "/tmp/" +:+ pipeline_type +:+ "_payload.json".

Definition csv_file_of (output_dir pipeline_type : string) : string :=
  output_dir +:+ "/" +:+ pipeline_type +:+ "-pipeline-results.csv".

(** Lines 58-61 as an effect: the file is there whether or not the block
    raised. *)
Definition save_csv (csv_file : string) (results : json) : M unit :=
  let '(lines, r) := csv_lines results in
  emit (EvWrite csv_file (CsvOut lines));; lift r.

Definition run_single_pipeline (env : Env) (pipeline_type : string)
    (companies : list Record_) (output_dir : string) : M (json * Q) :=
  let temp_file := temp_file_of pipeline_type in
  emit (EvWrite temp_file (PayloadJson pipeline_type companies));;
  start_time ← time_time env;
  result ← subprocess_run_curl env temp_file pipeline_type companies;
  now ← time_time env;
  let elapsed := fsub env now start_time in
  if (returncode result =? 0)%Z then
    try_except_JSONDecodeError
      (data ← lift (json_loads env (stdout result));
       has_results ← lift (py_in "results" data);
       if has_results : bool then
         results ← lift (py_getitem data "results");
         _ ← lift (py_len results);
         let csv_file := csv_file_of output_dir pipeline_type in
         (if truthy results then save_csv csv_file results else mret tt);;
         mret (results, elapsed)
       else mret (JArr [], elapsed))
      (mret (JArr [], elapsed))
  else mret (JArr [], elapsed).

(** Lines 51-67 on their own: what the [try] block does with the parsed
    reply.  Used to state the steps of a call. *)
Definition process (output_dir pipeline_type : string) (elapsed : Q)
    (data : json) : M (json * Q) :=
  has_results ← lift (py_in "results" data);
  if has_results : bool then
    results ← lift (py_getitem data "results");
    _ ← lift (py_len results);
    let csv_file := csv_file_of output_dir pipeline_type in
    (if truthy results then save_csv csv_file results else mret tt);;
    mret (results, elapsed)
  else mret (JArr [], elapsed).

(** ** Run Orchestrator *)

Definition output_dir : string := "/Users/rosssylvester/Desktop/FINAL".
Definition input_file : string := "inputs/all-1233-companies.csv".

Definition main (env : Env) : M unit :=
  emit (EvMkdir output_dir);;
  all_companies ← lift (load_companies (files env) input_file None);
  total_start ← time_time env;
  '(core_results, core_time) ←
    run_single_pipeline env "core" all_companies output_dir;
  '(advanced_results, advanced_time) ←
    run_single_pipeline env "advanced" (take 100 all_companies) output_dir;
  '(powerhouse_results, powerhouse_time) ←
    run_single_pipeline env "powerhouse" (take 10 all_companies) output_dir;
  now ← time_time env;
  let total_time := fsub env now total_start in
  n_core ← lift (py_len core_results);
  n_advanced ← lift (py_len advanced_results);
  n_powerhouse ← lift (py_len powerhouse_results);
  let summary :=
    mkSummary n_core n_advanced n_powerhouse
      (round1 env (fdiv env total_time 60)) in
  emit (EvWrite (output_dir +:+ "/summary.json") (SummaryJson summary)).

(** Lines 94-111 on their own: what [main] does once the three batches have
    returned.  Used to state the steps of a run. *)
Definition finish (env : Env) (total_start : Q)
    (core_results advanced_results powerhouse_results : json) : M unit :=
  now ← time_time env;
  let total_time := fsub env now total_start in
  n_core ← lift (py_len core_results);
  n_advanced ← lift (py_len advanced_results);
  n_powerhouse ← lift (py_len powerhouse_results);
  let summary :=
    mkSummary n_core n_advanced n_powerhouse
      (round1 env (fdiv env total_time 60)) in
  emit (EvWrite (output_dir +:+ "/summary.json") (SummaryJson summary)).

(** The batches posted during a run, in order. *)
Definition submissions (tr : list event) : list (string * list Record_) :=
  omap (fun e => match e with
                 | EvCurl _ p cs => Some (p, cs)
                 | _ => None
                 end) tr.

(** The paths written during a run, in order. *)
Definition written_paths (tr : list event) : list string :=
  omap (fun e => match e with
                 | EvWrite path _ => Some path
                 | _ => None
                 end) tr.

(** ** The derivation of [companyName] in the words of the specification *)

Module Claimed.

(** Remove [p] when [s] starts with it. *)
Definition strip_prefix (p s : string) : string :=
  if String.prefix p s then PyStr.drop_chars (String.length p) s else s.

(** Remove a leading [https://] or [http://]. *)
Definition strip_scheme (s : string) : string :=
  if String.prefix "https://" s then PyStr.drop_chars 8 s
  else if String.prefix "http://" s then PyStr.drop_chars 7 s
  else s.

(** Capitalize the first letter of each whitespace-separated word and leave
    the other characters as they are. *)
Fixpoint capitalize_from (at_word_start : bool) (s : string) : string :=
  match s with
  | EmptyString => EmptyString
  | String c s' =>
      String (if at_word_start then PyStr.upper c else c)
             (capitalize_from (PyStr.is_space c) s')
  end.

Definition capitalize_words (s : string) : string := capitalize_from true s.

Definition company_name (website : string) : string :=
  capitalize_words
    (hd EmptyString (PyStr.split "." (strip_prefix "www." (strip_scheme website)))).

End Claimed.

(** ** Replies of the remote service *)

(** A row fits a header when it is an object whose keys are all in it. *)
Definition row_fits (fieldnames : list string) (row : json) : bool :=
  match row with
  | JObj pairs =>
      forallb (fun k => existsb (String.eqb k) fieldnames) (dict_keys pairs)
  | _ => false
  end.

(** Uniform-keyed result rows: objects, none with a key the first lacks. *)
Definition well_formed_rows (rows : list json) : bool :=
  match rows with
  | [] => true
  | JObj first :: _ => forallb (row_fits (dict_keys first)) rows
  | _ :: _ => false
  end.

(** The kinds of outcome of the [curl] call: the three per-batch errors, a
    sequence of uniform-keyed rows, and anything else (an exception out of
    [subprocess.run] or, other than [JSONDecodeError], out of [json.loads];
    a parsed reply of another shape). *)
Inductive reply : Type :=
| TransportFailure
| InvalidJson
| NoResults
| Rows (rows : list json)
| Malformed.

Definition classify (env : Env) (run : result CompletedProcess) : reply :=
  match run with
  | Raise _ => Malformed
  | Ok r =>
      if negb (returncode r =? 0)%Z then TransportFailure
      else
        match json_loads env (stdout r) with
        | Raise JSONDecodeError => InvalidJson
        | Raise _ => Malformed
        | Ok data =>
            match py_in "results" data with
            | Ok false => NoResults
            | Ok true =>
                match data with
                | JObj pairs =>
                    match dict_get pairs "results" with
                    | Some (JArr rows) =>
                        if well_formed_rows rows then Rows rows else Malformed
                    | _ => Malformed
                    end
                | _ => Malformed
                end
            | Raise _ => Malformed
            end
        end
  end.

Definition is_malformed (c : reply) : bool :=
  match c with Malformed => true | _ => false end.

Definition reply_rows (c : reply) : list json :=
  match c with Rows rows => rows | _ => [] end.

(** The cells of a row under a header; a missing key gives the empty
    string. *)
Definition csv_cells (fieldnames : list string) (row : json) : list json :=
  match row with
  | JObj pairs => map (fun key => default (JStr "") (dict_get pairs key)) fieldnames
  | _ => []
  end.

(** The results file of a batch that returned [rows], if there is one. *)
Definition csv_events (output_dir pipeline_type : string) (rows : list json)
    : list event :=
  match rows with
  | JObj first :: _ =>
      [EvWrite (csv_file_of output_dir pipeline_type)
         (CsvOut (map JStr (dict_keys first)
                  :: map (csv_cells (dict_keys first)) rows))]
  | _ => []
  end.

Fixpoint last_char (s : string) : option ascii :=
  match s with
  | EmptyString => None
  | String c s' =>
      match last_char s' with
      | None => Some c
      | Some c' => Some c'
      end
  end.

(** The number of leading rows a limit lets through. *)
Definition rows_visited (limit : option Z) (total : nat) : nat :=
  match limit with
  | None => total
  | Some l => if (l =? 0)%Z then total else Z.to_nat l
  end.

(** The batches of lines 90-92. *)
Definition three_batches (recs : list Record_) : list (string * list Record_) :=
  [("core", recs); ("advanced", take 100 recs); ("powerhouse", take 10 recs)].

(** ** The derivation of [companyName], step by step *)

Module Described.

(** Every character is ASCII. *)
Fixpoint is_ascii (s : string) : bool :=
  match s with
  | EmptyString => true
  | String c s' => (nat_of_ascii c <? 128)%nat && is_ascii s'
  end.

(** [Deleted old s t]: [t] is [s] without the occurrences of [old] that a
    scan from left to right meets, each starting where the one before it
    ends or later. *)
Inductive Deleted (old : string) : string -> string -> Prop :=
| Deleted_end : Deleted old "" ""
| Deleted_occurrence (s t : string) :
    Deleted old s t -> Deleted old (old +:+ s) t
| Deleted_char (c : ascii) (s t : string) :
    (forall rest : string, String c s <> old +:+ rest) ->
    Deleted old s t -> Deleted old (String c s) (String c t).

(** [seg] is the text of [s] before its first [sep], all of [s] when it has
    none. *)
Definition FirstSegment (sep : ascii) (s seg : string) : Prop :=
  (forall a b : string, seg <> a +:+ String sep b) /\
  (s = seg \/ exists rest : string, s = seg +:+ String sep rest).

Definition is_letter (c : ascii) : bool :=
  let n := nat_of_ascii c in
  ((65 <=? n)%nat && (n <=? 90)%nat) || ((97 <=? n)%nat && (n <=? 122)%nat).

(** What title case makes of a character: after a letter, an upper-case
    letter becomes lower case; elsewhere, a lower-case letter becomes upper
    case; any other character stays. *)
Definition cased (after_letter : bool) (c : ascii) : ascii :=
  let n := nat_of_ascii c in
  if after_letter
  then (if (65 <=? n)%nat && (n <=? 90)%nat then ascii_of_nat (n + 32) else c)
  else (if (97 <=? n)%nat && (n <=? 122)%nat then ascii_of_nat (n - 32) else c).

(** Is the character before position [i] of [s] a letter? *)
Definition after_letter (s : string) (i : nat) : bool :=
  match i with
  | O => false
  | S j => match String.get j s with
           | Some p => is_letter p
           | None => false
           end
  end.

(** [t] is [s] in title case. *)
Definition TitleCased (s t : string) : Prop :=
  String.length t = String.length s /\
  forall (i : nat) (c : ascii),
    String.get i s = Some c ->
    String.get i t = Some (cased (after_letter s i) c).

End Described.

(** ** A parsed reply without [results] *)

(** An object with no key [results], an array with no element ['results'],
    a string in which [results] does not occur. *)
Inductive LacksResults : json -> Prop :=
| lacks_object (pairs : list (string * json)) :
    ~ In "results" (map fst pairs) -> LacksResults (JObj pairs)
| lacks_array (items : list json) :
    ~ In (JStr "results") items -> LacksResults (JArr items)
| lacks_string (s : string) :
    (forall a b : string, s <> a +:+ "results" +:+ b) ->
    LacksResults (JStr s).

(** ** Sample inputs *)

Module Sample.

Definition header : list string := ["Website"; "Account Owner"].

(** Three sites whose names the loader and the specification's wording
    derive differently. *)
Definition names_lines : list (list string) :=
  [header; ["IBM.com"; "Ann"]; ["https://my-shop.com"; "Bob"];
   ["awww.b.com"; "Cy"]].

Definition names_files : gmap string (list (list string)) :=
  {[ "in.csv" := names_lines ]}.

Definition example_lines : list (list string) :=
  [header; ["https://www.Example.com/path"; "Bob"]; ["acme.io"; "Ann"]].

Definition example_files : gmap string (list (list string)) :=
  {[ "in.csv" := example_lines ]}.

Definition example_records : list Record_ :=
  [mkRecord "Example" "https://www.Example.com/path" (Some "Bob");
   mkRecord "Acme" "acme.io" (Some "Ann")].

Definition one_line : list (list string) := [header; ["a.com"; "Ann"]].

Definition one_file : gmap string (list (list string)) :=
  {[ "in.csv" := one_line ]}.

Definition main_files : gmap string (list (list string)) :=
  {[ input_file := example_lines ]}.

Definition quoted (s : string) : string :=
  String (ascii_of_nat 34) (s +:+ String (ascii_of_nat 34) "").

(** Reply bodies: two result rows, a number where the rows should be, and
    an error object. *)
Definition rows_body : string :=
  "{" +:+ quoted "results" +:+ ": [{" +:+ quoted "company" +:+ ": "
  +:+ quoted "Example" +:+ ", " +:+ quoted "score" +:+ ": 7}, {"
  +:+ quoted "company" +:+ ": " +:+ quoted "Acme" +:+ "}]}".

Definition five_body : string := "{" +:+ quoted "results" +:+ ": 5}".

Definition error_body : string :=
  "{" +:+ quoted "error" +:+ ": " +:+ quoted "bad request" +:+ "}".

Definition rows_json : json :=
  JObj [("results",
         JArr [JObj [("company", JStr "Example"); ("score", JInt 7)];
               JObj [("company", JStr "Acme")]])].

(** A reply that is the JSON value [null], and one that opens 2000
    arrays. *)
Definition null_body : string := "null".

Definition deep_body : string := String.concat "" (repeat "[" 2000).

(** [json.loads] on the bodies above. *)
Definition loads (s : string) : result json :=
  if String.eqb s rows_body then Ok rows_json
  else if String.eqb s five_body then Ok (JObj [("results", JInt 5)])
  else if String.eqb s error_body then Ok (JObj [("error", JStr "bad request")])
  else if String.eqb s null_body then Ok JNull
  else if String.eqb s deep_body then Raise RecursionError
  else Raise JSONDecodeError.

(** Stand-ins for the float operations: exact subtraction and division, and
    rounding of the exact value to one decimal place, half to even.  On the
    readings below they give the numbers the double operations give, to one
    decimal place. *)
Definition round_half_even (q : Q) : Z :=
  let f := Qfloor q in
  match (q - inject_Z f ?= 1 # 2)%Q with
  | Lt => f
  | Gt => (f + 1)%Z
  | Eq => if Z.even f then f else (f + 1)%Z
  end.

Definition round1_exact (x : Q) : Q :=
  (inject_Z (round_half_even (x * 10)) / 10)%Q.

Definition world (curl : nat -> string -> list Record_ -> result CompletedProcess)
    (clock : nat -> Q) (files : gmap string (list (list string))) : Env :=
  mkEnv clock curl loads files Qminus Qdiv round1_exact.

(** Each call takes 0.99 s and 0.01 s pass between two calls. *)
Definition readings (n : nat) : Q :=
  nth n [0; 1 # 100; 1; 101 # 100; 2; 201 # 100; 3]%Q (301 # 100)%Q.

(** The first call returns two rows, the second times out, the third gets an
    error object. *)
Definition mixed_env : Env :=
  world
    (fun n _ _ =>
       match n with
       | 0 => Ok (mkCompleted 0 rows_body "")
       | 1 => Ok (mkCompleted 28 "" "Operation timed out")
       | _ => Ok (mkCompleted 0 error_body "")
       end)
    readings main_files.

(** The first call returns a number where the rows should be. *)
Definition malformed_env : Env :=
  world (fun _ _ _ => Ok (mkCompleted 0 five_body "")) readings main_files.

(** Every call gets the reply [null]. *)
Definition null_env : Env :=
  world (fun _ _ _ => Ok (mkCompleted 0 null_body "")) readings main_files.

(** Every call gets a reply on which [json.loads] raises [RecursionError]. *)
Definition deep_env : Env :=
  world (fun _ _ _ => Ok (mkCompleted 0 deep_body "")) readings main_files.

(** The output of every call is not text. *)
Definition binary_env : Env :=
  world (fun _ _ _ => Raise UnicodeDecodeError) readings main_files.

(** A file without an [Account Owner] column. *)
Definition ownerless_lines : list (list string) := [["Website"]; ["a.com"]].

Definition ownerless_env : Env :=
  world (fun _ _ _ => Ok (mkCompleted 0 rows_body "")) readings
    {[ input_file := ownerless_lines ]}.

(** A data line shorter than a header without [Account Owner]. *)
Definition short_lines : list (list string) := [["Name"; "Website"]; ["foo"]].

Definition short_row : gmap string cell := dict_row ["Name"; "Website"] ["foo"].

End Sample.

(** [c in s] for a character. *)
Fixpoint has_char (c : ascii) (s : string) : bool :=
  match s with
  | EmptyString => false
  | String a s' => Ascii.eqb a c || has_char c s'
  end.

(** ** Further sample inputs *)

Module Sample2.

(** A file with a blank line between its two data lines. *)
Definition blank_lines : list (list string) :=
  [Sample.header; ["acme.io"; "Ann"]; []; ["b.org"; "Bob"]].

Definition blank_files : gmap string (list (list string)) :=
  {[ "in.csv" := blank_lines ]}.

(** A file whose second data line has no [Website] cell. *)
Definition broken_lines : list (list string) :=
  [["Account Owner"; "Website"]; ["Ann"; "acme.io"]; ["Bob"]].

Definition broken_files : gmap string (list (list string)) :=
  {[ "in.csv" := broken_lines ]}.

(** A file without a [Website] column. *)
Definition no_website_lines : list (list string) :=
  [["Name"; "Account Owner"]; ["Acme"; "Ann"]].

Definition no_website_files : gmap string (list (list string)) :=
  {[ "in.csv" := no_website_lines ]}.

(** A reply whose second row has a key the first row lacks. *)
Definition ragged_body : string :=
  "{" +:+ Sample.quoted "results" +:+ ": [{" +:+ Sample.quoted "company"
  +:+ ": " +:+ Sample.quoted "Example" +:+ "}, {" +:+ Sample.quoted "company"
  +:+ ": " +:+ Sample.quoted "Acme" +:+ ", " +:+ Sample.quoted "score"
  +:+ ": 7}]}".

Definition ragged_pairs : list (string * json) :=
  [("results",
    JArr [JObj [("company", JStr "Example")];
          JObj [("company", JStr "Acme"); ("score", JInt 7)]])].

Definition ragged_env : Env :=
  mkEnv Sample.readings (fun _ _ _ => Ok (mkCompleted 0 ragged_body ""))
    (fun s => if String.eqb s ragged_body then Ok (JObj ragged_pairs)
              else Raise JSONDecodeError)
    Sample.main_files Qminus Qdiv Sample.round1_exact.

(** No input file at all. *)
Definition no_file_env : Env :=
  Sample.world (fun _ _ _ => Ok (mkCompleted 0 Sample.rows_body ""))
    Sample.readings ∅.

(** An input file with a header and no data line. *)
Definition header_only_env : Env :=
  Sample.world (fun _ _ _ => Ok (mkCompleted 0 Sample.rows_body ""))
    Sample.readings {[ input_file := [Sample.header] ]}.

End Sample2.

(** * Properties *)

(** ** Strings *)

Example company_name_example : company_name "https://www.Example.com/path" = "Example".
Proof. reflexivity. Qed.

Example company_name_lowers : company_name "IBM.com" = "Ibm".
Proof. reflexivity. Qed.

Example company_name_hyphen : company_name "http://my-shop.co.uk" = "My-Shop".
Proof. reflexivity. Qed.

Example company_name_inner_www : company_name "awww.b.com" = "Ab".
Proof. reflexivity. Qed.

Lemma split_nonempty (sep : ascii) (s : string) : PyStr.split sep s <> [].
Proof.
  destruct s as [|c s]; simpl; [discriminate|].
  destruct (Ascii.eqb c sep); [discriminate|].
  destruct (PyStr.split sep s); discriminate.
Qed.

Lemma title_from_length (b : bool) (s : string) :
  String.length (PyStr.title_from b s) = String.length s.
Proof.
  revert b; induction s as [|c s IH]; intros b; simpl; [reflexivity|].
  now rewrite IH.
Qed.

(** A string in which [old] does not occur is left alone by [replace]. *)
Lemma replace_scan_absent (old new s : string) :
  PyStr.contains old s = false -> PyStr.replace_scan old new 0 s = s.
Proof.
  induction s as [|c s IH]; simpl; [reflexivity|].
  intros H. apply orb_false_iff in H as [Hp Hc].
  change (String.prefix old (String c s)) with
    (match old with
     | EmptyString => true
     | String a old' =>
         if Ascii.ascii_dec a c then String.prefix old' s else false
     end) in Hp.
  change (String.prefix old (String c s)) with
    (match old with
     | EmptyString => true
     | String a old' =>
         if Ascii.ascii_dec a c then String.prefix old' s else false
     end).
  rewrite Hp. now rewrite IH.
Qed.

Lemma prefix_app (old s : string) : String.prefix old (old +:+ s) = true.
Proof.
  induction old as [|a old IH]; simpl.
  - now destruct s.
  - destruct (Ascii.ascii_dec a a); [exact IH | contradiction].
Qed.

Lemma replace_scan_skip (old new t s : string) :
  PyStr.replace_scan old new (String.length t) (t +:+ s)
  = PyStr.replace_scan old new 0 s.
Proof.
  induction t as [|c t IH]; simpl; [|exact IH].
  destruct s; reflexivity.
Qed.

(** A leading occurrence of [old] is replaced and the scan goes on after
    it. *)
Lemma replace_scan_leading (old new s : string) :
  old <> "" ->
  PyStr.replace_scan old new 0 (old +:+ s)
  = new +:+ PyStr.replace_scan old new 0 s.
Proof.
  destruct old as [|a old]; [contradiction|]. intros _.
  pose proof (prefix_app (String a old) s) as Hp.
  change (String a old +:+ s) with (String a (old +:+ s)) in *.
  cbn [PyStr.replace_scan]. rewrite Hp. cbn [String.length]. rewrite Nat.sub_1_r. cbn [Nat.pred].
  now rewrite replace_scan_skip.
Qed.

Lemma hd_split_has_no_sep (sep : ascii) (s : string) :
  has_char sep (hd "" (PyStr.split sep s)) = false.
Proof.
  induction s as [|c s IH]; simpl; [reflexivity|].
  destruct (Ascii.eqb c sep) eqn:Hc; [reflexivity|].
  destruct (PyStr.split sep s) as [|w ws]; simpl in *.
  - now rewrite Hc.
  - now rewrite Hc, IH.
Qed.

Lemma prefix_true_split (p s : string) :
  String.prefix p s = true -> exists rest : string, s = p +:+ rest.
Proof.
  revert s. induction p as [|a p IH]; intros s H.
  - now exists s.
  - destruct s as [|c s]; simpl in H; [discriminate|].
    destruct (Ascii.ascii_dec a c) as [->|]; [|discriminate].
    destruct (IH s H) as [rest ->]. now exists rest.
Qed.

Lemma prefix_false_no_split (p s : string) :
  String.prefix p s = false -> forall rest : string, s <> p +:+ rest.
Proof.
  intros H rest ->. now rewrite prefix_app in H.
Qed.

Lemma length_append (a b : string) :
  String.length (a +:+ b) = (String.length a + String.length b)%nat.
Proof. induction a as [|c a IH]; simpl; [reflexivity | now rewrite IH]. Qed.

(** [replace old ''] deletes the occurrences of [old] that a scan from left
    to right meets. *)
Lemma replace_scan_Deleted (old s : string) :
  old <> "" -> Described.Deleted old s (PyStr.replace_scan old "" 0 s).
Proof.
  intros Hold.
  remember (String.length s) as n eqn:Hn.
  revert s Hn. induction n as [n IH] using lt_wf_ind. intros s Hn.
  destruct s as [|c s]; [constructor|].
  destruct (String.prefix old (String c s)) eqn:Hp.
  - destruct (prefix_true_split _ _ Hp) as [rest Hrest].
    rewrite Hrest, replace_scan_leading by exact Hold.
    change ("" +:+ PyStr.replace_scan old "" 0 rest)
      with (PyStr.replace_scan old "" 0 rest).
    constructor. apply (IH (String.length rest)); [|reflexivity].
    rewrite Hn, Hrest, length_append.
    destruct old; [contradiction | simpl; lia].
  - cbn [PyStr.replace_scan]. rewrite Hp.
    constructor; [now apply prefix_false_no_split|].
    apply (IH (String.length s)); [subst n; simpl; lia | reflexivity].
Qed.

Lemma has_char_app (c : ascii) (a b : string) :
  has_char c (a +:+ String c b) = true.
Proof.
  induction a as [|x a IH]; simpl.
  - now rewrite Ascii.eqb_refl.
  - rewrite IH. apply orb_true_r.
Qed.

(** [split(sep)[0]] is the text before the first [sep]. *)
Lemma hd_split_FirstSegment (sep : ascii) (s : string) :
  Described.FirstSegment sep s (hd "" (PyStr.split sep s)).
Proof.
  split.
  - intros a b H. pose proof (hd_split_has_no_sep sep s) as Hno.
    rewrite H, has_char_app in Hno. discriminate.
  - induction s as [|c s IH]; simpl; [now left|].
    destruct (Ascii.eqb_spec c sep) as [->|Hne].
    + right. now exists s.
    + pose proof (split_nonempty sep s) as Hs.
      destruct (PyStr.split sep s) as [|w ws]; [contradiction|]. simpl in *.
      destruct IH as [->|[rest ->]]; [now left|]. right. now exists rest.
Qed.

Lemma title_from_get (s : string) (b : bool) (i : nat) (c : ascii) :
  String.get i s = Some c ->
  String.get i (PyStr.title_from b s) =
  Some (Described.cased
          (match i with
           | O => b
           | S j => match String.get j s with
                    | Some p => Described.is_letter p
                    | None => false
                    end
           end) c).
Proof.
  revert b i. induction s as [|a s IH]; intros b i H; [discriminate|].
  destruct i as [|i]; simpl in *.
  - inversion H; subst. destruct b; reflexivity.
  - rewrite (IH _ _ H). destruct i as [|i]; reflexivity.
Qed.

(** [title()] puts a string in title case. *)
Lemma title_TitleCased (s : string) : Described.TitleCased s (PyStr.title s).
Proof.
  split; [apply title_from_length|].
  intros i c H. unfold PyStr.title. rewrite (title_from_get _ _ _ _ H).
  now destruct i.
Qed.

(** The three steps determine their result. *)
Lemma append_inv_head (p a b : string) : p +:+ a = p +:+ b -> a = b.
Proof.
  induction p as [|c p IH]; simpl; intros H; [exact H|].
  inversion H. auto.
Qed.

Lemma append_nil_r (s : string) : s +:+ "" = s.
Proof.
  induction s as [|c s IH]; [reflexivity|].
  change (String c (s +:+ "") = String c s). now rewrite IH.
Qed.

Lemma Deleted_functional (old s t t' : string) :
  old <> "" ->
  Described.Deleted old s t -> Described.Deleted old s t' -> t = t'.
Proof.
  intros Hold H. revert t'.
  induction H as [|s t H IH|c s t Hc H IH]; intros t' H'.
  - inversion H' as [|s0 t0 H0 Heq|]; subst; [reflexivity|].
    destruct old; [contradiction | discriminate].
  - remember (old +:+ s) as u eqn:Hu.
    destruct H' as [|s' t' H'|c' s' t' Hc' H'].
    + destruct old; [contradiction | discriminate].
    + apply append_inv_head in Hu. subst s'. apply IH, H'.
    + now elim (Hc' s).
  - inversion H' as [|s0 t0 H0 Heq|c0 s0 t0 Hc0 H0]; subst.
    + now elim (Hc s0).
    + f_equal. apply IH, H0.
Qed.

Lemma FirstSegment_functional (sep : ascii) (s seg seg' : string) :
  Described.FirstSegment sep s seg -> Described.FirstSegment sep s seg' ->
  seg = seg'.
Proof.
  intros [Hno Hs] [Hno' Hs'].
  assert (exists x x' : string,
             seg +:+ x = seg' +:+ x' /\
             (x = "" \/ exists rest, x = String sep rest) /\
             (x' = "" \/ exists rest, x' = String sep rest))
    as (x & x' & Heq & Hx & Hx').
  { destruct Hs as [Hs|[rest Hs]], Hs' as [Hs'|[rest' Hs']].
    - exists "", "". rewrite !append_nil_r, <- Hs, <- Hs'. auto.
    - exists "", (String sep rest'). rewrite append_nil_r, <- Hs, <- Hs'.
      repeat split; eauto.
    - exists (String sep rest), "". rewrite append_nil_r, <- Hs, <- Hs'.
      repeat split; eauto.
    - exists (String sep rest), (String sep rest'). rewrite <- Hs, <- Hs'.
      repeat split; eauto. }
  clear Hs Hs' s. revert seg' Hno' Heq.
  induction seg as [|c seg IH]; intros [|c' seg'] Hno' Heq.
  - reflexivity.
  - exfalso. simpl in Heq.
    destruct Hx as [->|[rest ->]]; [discriminate|].
    inversion Heq; subst. now apply (Hno' "" seg').
  - exfalso. simpl in Heq.
    destruct Hx' as [->|[rest ->]]; [discriminate|].
    inversion Heq; subst. now apply (Hno "" seg).
  - simpl in Heq. inversion Heq; subst. f_equal.
    apply IH; [| |assumption].
    + intros a b ->. now apply (Hno (String c' a) b).
    + intros a b ->. now apply (Hno' (String c' a) b).
Qed.

Lemma get_beyond (s t : string) (i : nat) :
  String.length t = String.length s ->
  String.get i s = None -> String.get i t = None.
Proof.
  revert t i. induction s as [|c s IH]; intros [|d t] i Hlen H;
    try discriminate; [reflexivity|].
  destruct i as [|i]; [discriminate|]. simpl in *.
  apply IH; [lia | exact H].
Qed.

Lemma TitleCased_functional (s t t' : string) :
  Described.TitleCased s t -> Described.TitleCased s t' -> t = t'.
Proof.
  intros [Hlen H] [Hlen' H'].
  apply String.get_correct. intros i.
  destruct (String.get i s) as [c|] eqn:Hi.
  - now rewrite (H _ _ Hi), (H' _ _ Hi).
  - now rewrite (get_beyond s t i Hlen Hi), (get_beyond s t' i Hlen' Hi).
Qed.

(** ** Record Loader *)

Lemma traverse_app {A B : Type} (f : A -> result B) (l1 l2 : list A) :
  traverse f (l1 ++ l2) =
  ys1 ← traverse f l1; ys2 ← traverse f l2; Ok (ys1 ++ ys2)%list.
Proof.
  induction l1 as [|x l1 IH]; simpl.
  - destruct (traverse f l2); reflexivity.
  - destruct (f x) as [y|e]; simpl; [|reflexivity].
    rewrite IH. destruct (traverse f l1); simpl; [|reflexivity].
    destruct (traverse f l2); reflexivity.
Qed.

Lemma traverse_Ok_length {A B : Type} (f : A -> result B) (l : list A) (ys : list B) :
  traverse f l = Ok ys -> length ys = length l.
Proof.
  revert ys; induction l as [|x l IH]; simpl; intros ys H.
  - now inversion H.
  - destruct (f x) as [y|e]; simpl in H; [|discriminate].
    destruct (traverse f l) as [ys'|e]; simpl in H; [|discriminate].
    inversion H; subst; simpl. f_equal. now apply IH.
Qed.

Lemma traverse_Ok_lookup {A B : Type} (f : A -> result B) (l : list A) (ys : list B) :
  traverse f l = Ok ys ->
  forall (i : nat) (y : B), ys !! i = Some y ->
  exists x : A, l !! i = Some x /\ f x = Ok y.
Proof.
  revert ys; induction l as [|x l IH]; simpl; intros ys H i y Hy.
  - inversion H; subst. destruct i; discriminate.
  - destruct (f x) as [y0|e] eqn:Hx; simpl in H; [|discriminate].
    destruct (traverse f l) as [ys'|e]; simpl in H; [|discriminate].
    inversion H; subst. destruct i as [|i]; simpl in Hy.
    + inversion Hy; subst. now exists x.
    + apply (IH ys' eq_refl i y Hy).
Qed.

(** Without a limit, or with the falsy limit [0], the loop visits every row. *)
Lemma load_loop_unlimited (limit : option Z) (i : Z)
    (rows : list (gmap string cell)) (companies : list Record_) :
  limit = None \/ limit = Some 0%Z ->
  load_loop limit i rows companies =
  ys ← traverse row_to_record rows; Ok (companies ++ ys)%list.
Proof.
  intros Hl. revert i companies.
  induction rows as [|row rows IH]; intros i companies; simpl.
  - now rewrite app_nil_r.
  - assert (limit_reached limit i = false) as ->
      by (destruct Hl as [-> | ->]; reflexivity).
    destruct (row_to_record row) as [r|e]; simpl; [|reflexivity].
    rewrite IH. destruct (traverse row_to_record rows); simpl; [|reflexivity].
    now rewrite <- app_assoc.
Qed.

(** With a limit other than [0], the loop stops at index [limit]. *)
Lemma load_loop_limited (n i : Z) (rows : list (gmap string cell))
    (companies : list Record_) :
  n <> 0%Z -> (0 <= i)%Z ->
  load_loop (Some n) i rows companies =
  ys ← traverse row_to_record (take (Z.to_nat (n - i)) rows);
  Ok (companies ++ ys)%list.
Proof.
  intros Hn. revert i companies.
  induction rows as [|row rows IH]; intros i companies Hi; simpl.
  - rewrite take_nil. simpl. now rewrite app_nil_r.
  - unfold limit_reached. destruct (Z.eqb_spec n 0) as [|_]; [contradiction|].
    destruct (Z.leb_spec n i) as [Hle|Hlt].
    + replace (Z.to_nat (n - i)) with 0%nat by lia. simpl.
      now rewrite app_nil_r.
    + replace (Z.to_nat (n - i)) with (S (Z.to_nat (n - (i + 1)))) by lia.
      simpl. destruct (row_to_record row) as [r|e]; simpl; [|reflexivity].
      rewrite IH by lia.
      destruct (traverse row_to_record (take _ rows)); simpl; [|reflexivity].
      now rewrite <- app_assoc.
Qed.

Lemma load_companies_traverse (files : gmap string (list (list string)))
    (filename : string) (limit : option Z) (lines : list (list string)) :
  files !! filename = Some lines ->
  load_companies files filename limit =
  traverse row_to_record
    (take (rows_visited limit (length (DictReader lines))) (DictReader lines)).
Proof.
  intros Hf. unfold load_companies. rewrite Hf.
  assert (forall r : result (list Record_),
             (ys ← r; Ok ([] ++ ys)%list) = r) as Hid
    by (intros [ys|e]; reflexivity).
  destruct limit as [l|]; simpl.
  - destruct (Z.eqb_spec l 0) as [->|Hl].
    + rewrite load_loop_unlimited by auto. rewrite firstn_all. apply Hid.
    + rewrite load_loop_limited by (auto; lia).
      rewrite Z.sub_0_r. apply Hid.
  - rewrite load_loop_unlimited by auto. rewrite firstn_all. apply Hid.
Qed.

Lemma row_to_record_Ok (row : gmap string cell) (r : Record_) :
  row_to_record row = Ok r ->
  exists w : string,
    row !! "Website" = Some (Some w) /\
    row !! "Account Owner" = Some (accountOwner r) /\
    domain r = w /\ companyName r = company_name w.
Proof.
  unfold row_to_record, getitem.
  destruct (row !! "Website") as [[w|]|]; simpl; try discriminate.
  destruct (row !! "Account Owner") as [o|]; simpl; try discriminate.
  intros H; inversion H; subst; simpl. now exists w.
Qed.

(** Every record comes from the row at its own index. *)
Lemma load_companies_lookup (files : gmap string (list (list string)))
    (filename : string) (limit : option Z) (lines : list (list string))
    (recs : list Record_) :
  files !! filename = Some lines ->
  load_companies files filename limit = Ok recs ->
  forall (i : nat) (r : Record_), recs !! i = Some r ->
  exists row : gmap string cell,
    DictReader lines !! i = Some row /\ row_to_record row = Ok r.
Proof.
  intros Hf Hl i r Hr.
  rewrite (load_companies_traverse _ _ _ _ Hf) in Hl.
  destruct (traverse_Ok_lookup _ _ _ Hl i r Hr) as (row & Hrow & Hok).
  exists row. split; [|exact Hok].
  apply lookup_take_Some in Hrow. tauto.
Qed.

(** C1 (as stated, refuted).  Three rows on which the loader's [companyName]
    is not the name the claim describes: [title] lowers the letters after the
    first of a word, starts a new word after any non-letter, and [replace]
    removes [www.] wherever it occurs. *)
Lemma C1_counterexample :
  exists recs : list Record_,
    load_companies Sample.names_files "in.csv" None = Ok recs /\
    map domain recs = ["IBM.com"; "https://my-shop.com"; "awww.b.com"] /\
    map companyName recs = ["Ibm"; "My-Shop"; "Ab"] /\
    map (fun r => Claimed.company_name (domain r)) recs = ["IBM"; "My-shop"; "Awww"].
Proof.
  eexists. split; [vm_compute; reflexivity|]. repeat split.
Qed.

(** C1 (amended).  Every record the Record Loader produces comes from the
    input row at the same index and its [domain] is that row's [Website]
    string [w].  When [w] is ASCII, its [companyName] is made from [w] by
    deleting every occurrence of [https://] met from left to right, then
    every occurrence of [http://], then every occurrence of [www.], by
    keeping the text before the first [.], and by putting it in title case:
    a letter that follows a letter is in lower case, any other letter is in
    upper case, and the other characters are unchanged.  These steps
    determine the name: no other string is obtained by them. *)
Theorem C1_company_name_derivation (files : gmap string (list (list string)))
    (filename : string) (limit : option Z) (lines : list (list string))
    (recs : list Record_) (i : nat) (r : Record_) :
  files !! filename = Some lines ->
  load_companies files filename limit = Ok recs ->
  recs !! i = Some r ->
  exists (row : gmap string cell) (w : string),
    DictReader lines !! i = Some row /\
    row !! "Website" = Some (Some w) /\
    domain r = w /\
    (Described.is_ascii w = true ->
     (exists s1 s2 s3 seg : string,
        Described.Deleted "https://" w s1 /\
        Described.Deleted "http://" s1 s2 /\
        Described.Deleted "www." s2 s3 /\
        Described.FirstSegment "." s3 seg /\
        Described.TitleCased seg (companyName r)) /\
     (forall s1 s2 s3 seg name : string,
        Described.Deleted "https://" w s1 ->
        Described.Deleted "http://" s1 s2 ->
        Described.Deleted "www." s2 s3 ->
        Described.FirstSegment "." s3 seg ->
        Described.TitleCased seg name ->
        name = companyName r)).
Proof.
  intros Hf Hl Hr.
  destruct (load_companies_lookup _ _ _ _ _ Hf Hl i r Hr) as (row & Hrow & Hok).
  destruct (row_to_record_Ok _ _ Hok) as (w & Hw & _ & Hd & Hn).
  exists row, w. split; [exact Hrow|]. split; [exact Hw|]. split; [exact Hd|].
  intros _. rewrite Hn. unfold company_name, PyStr.replace.
  pose proof (replace_scan_Deleted "https://" w) as D1.
  pose proof (replace_scan_Deleted "http://"
                (PyStr.replace_scan "https://" "" 0 w)) as D2.
  pose proof (replace_scan_Deleted "www."
                (PyStr.replace_scan "http://" ""  0
                   (PyStr.replace_scan "https://" "" 0 w))) as D3.
  split.
  - do 3 eexists. eexists.
    split; [apply D1; discriminate|].
    split; [apply D2; discriminate|].
    split; [apply D3; discriminate|].
    split; [apply hd_split_FirstSegment | apply title_TitleCased].
  - intros s1 s2 s3 seg name H1 H2 H3 Hseg Hname.
    assert (s1 = PyStr.replace_scan "https://" "" 0 w) as ->.
    { apply (Deleted_functional "https://" w); [discriminate | exact H1|].
      apply D1. discriminate. }
    assert (s2 = PyStr.replace_scan "http://" "" 0
                   (PyStr.replace_scan "https://" "" 0 w)) as ->.
    { eapply (Deleted_functional "http://"); [discriminate | exact H2|].
      apply D2. discriminate. }
    assert (s3 = PyStr.replace_scan "www." "" 0
                   (PyStr.replace_scan "http://" "" 0
                      (PyStr.replace_scan "https://" "" 0 w))) as ->.
    { eapply (Deleted_functional "www."); [discriminate | exact H3|].
      apply D3. discriminate. }
    rewrite (FirstSegment_functional _ _ _ _ Hseg (hd_split_FirstSegment _ _))
      in Hname.
    apply (TitleCased_functional _ _ _ Hname (title_TitleCased _)).
Qed.

Lemma C1_witness :
  exists (row : gmap string cell) (w : string),
    DictReader Sample.example_lines !! 0%nat = Some row /\
    row !! "Website" = Some (Some w) /\
    "https://www.Example.com/path" = w /\
    (Described.is_ascii w = true ->
     (exists s1 s2 s3 seg : string,
        Described.Deleted "https://" w s1 /\
        Described.Deleted "http://" s1 s2 /\
        Described.Deleted "www." s2 s3 /\
        Described.FirstSegment "." s3 seg /\
        Described.TitleCased seg "Example") /\
     (forall s1 s2 s3 seg name : string,
        Described.Deleted "https://" w s1 ->
        Described.Deleted "http://" s1 s2 ->
        Described.Deleted "www." s2 s3 ->
        Described.FirstSegment "." s3 seg ->
        Described.TitleCased seg name ->
        name = "Example")).
Proof.
  apply (C1_company_name_derivation Sample.example_files "in.csv" None
           Sample.example_lines Sample.example_records 0
           (mkRecord "Example" "https://www.Example.com/path" (Some "Bob")));
    vm_compute; reflexivity.
Defined.

(** C9.  A row whose [Website] is [https://www.Example.com/path] yields the
    [companyName] [Example]. *)
Theorem C9_example_com (files : gmap string (list (list string)))
    (filename : string) (limit : option Z) (lines : list (list string))
    (recs : list Record_) (i : nat) (r : Record_) (row : gmap string cell) :
  files !! filename = Some lines ->
  load_companies files filename limit = Ok recs ->
  recs !! i = Some r ->
  DictReader lines !! i = Some row ->
  row !! "Website" = Some (Some "https://www.Example.com/path") ->
  companyName r = "Example".
Proof.
  intros Hf Hl Hr Hrow Hw.
  destruct (load_companies_lookup _ _ _ _ _ Hf Hl i r Hr) as (row' & Hrow' & Hok).
  rewrite Hrow in Hrow'. inversion Hrow'; subst row'.
  destruct (row_to_record_Ok _ _ Hok) as (w & Hw' & _ & _ & Hn).
  rewrite Hw in Hw'. inversion Hw'; subst w. exact Hn.
Qed.

Lemma C9_witness :
  companyName (mkRecord "Example" "https://www.Example.com/path" (Some "Bob"))
  = "Example".
Proof.
  apply (C9_example_com Sample.example_files "in.csv" (Some 1%Z)
           Sample.example_lines
           [mkRecord "Example" "https://www.Example.com/path" (Some "Bob")] 0
           (mkRecord "Example" "https://www.Example.com/path" (Some "Bob"))
           (dict_row Sample.header ["https://www.Example.com/path"; "Bob"]));
    vm_compute; reflexivity.
Defined.

Lemma take_min_length {A : Type} (n : nat) (l : list A) :
  take (n `min` length l) l = take n l.
Proof.
  destruct (Nat.le_ge_cases n (length l)) as [H|H].
  - now rewrite Nat.min_l.
  - rewrite Nat.min_r by exact H. rewrite firstn_all.
    symmetry. now apply take_ge.
Qed.

(** C4 (as stated, refuted).  With the maximum count [0] a one-row file
    yields one record, where the first [min 0 1] rows yield none. *)
Lemma C4_counterexample :
  load_companies Sample.one_file "in.csv" (Some 0%Z)
    = Ok [mkRecord "A" "a.com" (Some "Ann")] /\
  traverse row_to_record
    (take (Z.to_nat (Z.min 0 (Z.of_nat (length (DictReader Sample.one_line)))))
          (DictReader Sample.one_line)) = Ok [] /\
  ~ (Z.of_nat (length [mkRecord "A" "a.com" (Some "Ann")]) <= 0)%Z.
Proof.
  split; [vm_compute; reflexivity|]. split; [vm_compute; reflexivity|].
  simpl. lia.
Qed.

(** C4 (amended).  For a maximum count [n >= 1] the Record Loader returns the
    records of the first [min n total] rows, in row order (or the first
    exception among those rows); a returned sequence has exactly
    [min n total] records, hence at most [n]. *)
Theorem C4_loader_truncates (files : gmap string (list (list string)))
    (filename : string) (n : Z) (lines : list (list string)) :
  files !! filename = Some lines ->
  (0 < n)%Z ->
  load_companies files filename (Some n) =
    traverse row_to_record
      (take (Z.to_nat n `min` length (DictReader lines)) (DictReader lines)) /\
  forall recs : list Record_,
    load_companies files filename (Some n) = Ok recs ->
    length recs = (Z.to_nat n `min` length (DictReader lines))%nat /\
    (Z.of_nat (length recs) <= n)%Z /\
    forall (i : nat) (r : Record_), recs !! i = Some r ->
      exists row : gmap string cell,
        DictReader lines !! i = Some row /\ row_to_record row = Ok r.
Proof.
  intros Hf Hn.
  pose proof (load_companies_traverse files filename (Some n) lines Hf) as Ht.
  simpl in Ht. destruct (Z.eqb_spec n 0) as [|_]; [lia|].
  split.
  - rewrite take_min_length. exact Ht.
  - intros recs Hl. rewrite Hl in Ht. symmetry in Ht.
    pose proof (traverse_Ok_length _ _ _ Ht) as Hlen.
    rewrite length_take in Hlen.
    split; [exact Hlen|]. split; [lia|].
    intros i r Hr. apply (load_companies_lookup _ _ _ _ _ Hf Hl i r Hr).
Qed.

Lemma C4_witness :
  load_companies Sample.example_files "in.csv" (Some 1%Z) =
    traverse row_to_record
      (take (Z.to_nat 1 `min` length (DictReader Sample.example_lines))
            (DictReader Sample.example_lines)) /\
  forall recs : list Record_,
    load_companies Sample.example_files "in.csv" (Some 1%Z) = Ok recs ->
    length recs = (Z.to_nat 1 `min` length (DictReader Sample.example_lines))%nat /\
    (Z.of_nat (length recs) <= 1)%Z /\
    forall (i : nat) (r : Record_), recs !! i = Some r ->
      exists row : gmap string cell,
        DictReader Sample.example_lines !! i = Some row /\
        row_to_record row = Ok r.
Proof.
  apply (C4_loader_truncates Sample.example_files "in.csv" 1
           Sample.example_lines); [vm_compute; reflexivity | lia].
Defined.

(** C10.  A maximum count of [0] is no limit: the loader returns what it
    returns without a limit, the records of all rows of the file (or the
    first exception a row raises). *)
Theorem C10_zero_limit_is_no_limit (files : gmap string (list (list string)))
    (filename : string) (lines : list (list string)) :
  load_companies files filename (Some 0%Z) = load_companies files filename None /\
  load_companies (<[filename := lines]> files) filename (Some 0%Z) =
    traverse row_to_record (DictReader lines).
Proof.
  split.
  - unfold load_companies. destruct (files !! filename); [|reflexivity].
    now rewrite !load_loop_unlimited by auto.
  - rewrite (load_companies_traverse _ filename (Some 0%Z) lines)
      by apply lookup_insert_eq.
    simpl. now rewrite firstn_all.
Qed.

(** ** Batch Submitter *)

Lemma last_char_app (s t : string) :
  t <> "" -> last_char (s +:+ t) = last_char t.
Proof.
  intros Ht. induction s as [|c s IH]; simpl; [reflexivity|].
  rewrite IH. destruct t as [|c' t]; [contradiction|].
  simpl. destruct (last_char t); reflexivity.
Qed.

(** The payload file and the results file of a mode are different files. *)
Lemma temp_file_not_csv_file (output_dir pipeline_type : string) :
  temp_file_of pipeline_type <> csv_file_of output_dir pipeline_type.
Proof.
  intros H. apply (f_equal last_char) in H.
  unfold temp_file_of, csv_file_of in H.
  rewrite (last_char_app "/tmp/") in H
    by (destruct pipeline_type; discriminate).
  rewrite (last_char_app pipeline_type) in H by discriminate.
  rewrite (last_char_app output_dir) in H by discriminate.
  rewrite (last_char_app "/") in H by (destruct pipeline_type; discriminate).
  rewrite (last_char_app pipeline_type) in H by discriminate.
  discriminate.
Qed.

Lemma py_in_object (key : string) (pairs : list (string * json)) :
  py_in key (JObj pairs) = Ok false <-> dict_get pairs key = None.
Proof.
  simpl. destruct (dict_get pairs key) as [v|].
  - split; [|discriminate]. rewrite bool_decide_eq_true_2 by eauto. discriminate.
  - split; [reflexivity|]. intros _. rewrite bool_decide_eq_false_2; [reflexivity|].
    intros [v Hv]; discriminate.
Qed.

Lemma writerows_fits (fieldnames : list string) (rows : list json)
    (written : list (list json)) :
  forallb (row_fits fieldnames) rows = true ->
  writerows fieldnames rows written =
  ((written ++ map (csv_cells fieldnames) rows)%list, Ok tt).
Proof.
  revert written. induction rows as [|row rows IH]; intros written H; simpl.
  - now rewrite app_nil_r.
  - simpl in H. apply andb_true_iff in H as [Hrow Hrows].
    destruct row as [| | | | | |pairs]; try discriminate.
    unfold dict_to_list. simpl.
    assert (List.filter (fun k => negb (existsb (String.eqb k) fieldnames))
              (dict_keys pairs) = []) as ->.
    { simpl in Hrow. induction (dict_keys pairs) as [|k ks IHk]; [reflexivity|].
      simpl in Hrow. apply andb_true_iff in Hrow as [Hk Hks].
      simpl. rewrite Hk. simpl. auto. }
    rewrite IH by exact Hrows. now rewrite <- app_assoc.
Qed.

Lemma csv_lines_well_formed (first : list (string * json)) (rest : list json) :
  well_formed_rows (JObj first :: rest) = true ->
  csv_lines (JArr (JObj first :: rest)) =
  (map JStr (dict_keys first)
   :: map (csv_cells (dict_keys first)) (JObj first :: rest), Ok tt).
Proof.
  intros H. unfold csv_lines. cbn [py_getitem_0 py_keys py_iter].
  unfold well_formed_rows in H. rewrite writerows_fits by exact H. reflexivity.
Qed.

Lemma dict_to_list_Ok (fieldnames : list string) (row : json) (line : list json) :
  dict_to_list fieldnames row = Ok line -> line = csv_cells fieldnames row.
Proof.
  unfold dict_to_list.
  destruct row as [| | | | | |pairs]; simpl; try discriminate.
  destruct (List.filter _ (dict_keys pairs)); [|discriminate].
  now inversion 1.
Qed.

Lemma writerows_Ok (fieldnames : list string) (rows : list json)
    (written lines : list (list json)) :
  writerows fieldnames rows written = (lines, Ok tt) ->
  lines = (written ++ map (csv_cells fieldnames) rows)%list.
Proof.
  revert written. induction rows as [|row rows IH]; intros written; simpl.
  - inversion 1. now rewrite app_nil_r.
  - destruct (dict_to_list fieldnames row) as [line|e] eqn:Hrow; [|discriminate].
    intros H. apply IH in H. rewrite H, <- app_assoc. simpl.
    now rewrite (dict_to_list_Ok _ _ _ Hrow).
Qed.

(** When the [with] block of lines 58-61 is left without an exception, the
    results are a list whose first row is an object, and the file holds that
    row's keys and one line per row. *)
Lemma csv_lines_Ok (results : json) (lines : list (list json)) :
  csv_lines results = (lines, Ok tt) ->
  exists (first : list (string * json)) (rest : list json),
    results = JArr (JObj first :: rest) /\
    lines = map JStr (dict_keys first)
            :: map (csv_cells (dict_keys first)) (JObj first :: rest).
Proof.
  unfold csv_lines.
  destruct results as [| | | |s|items|pairs]; simpl; try discriminate.
  - destruct s; discriminate.
  - destruct items as [|[| | | | | |first] rest]; simpl; try discriminate.
    intros H. exists first, rest. split; [reflexivity|].
    change (writerows (dict_keys first) (JObj first :: rest)
              [map JStr (dict_keys first)] = (lines, Ok tt)) in H.
    now apply writerows_Ok in H.
Qed.

Lemma truthy_len (results : json) (n : nat) :
  py_len results = Ok n -> truthy results = (0 <? n)%nat.
Proof.
  destruct results as [| | | |s|items|pairs]; simpl; try discriminate;
    inversion 1; subst.
  - now destruct s.
  - now destruct items.
  - now destruct pairs as [|[k v] rest].
Qed.

Lemma filter_negb_nil_forallb {A : Type} (f : A -> bool) (l : list A) :
  List.filter (fun x => negb (f x)) l = [] -> forallb f l = true.
Proof.
  induction l as [|x l IH]; simpl; [reflexivity|].
  destruct (f x); simpl; [exact IH | discriminate].
Qed.

Lemma dict_to_list_Ok_fits (fieldnames : list string) (row : json)
    (line : list json) :
  dict_to_list fieldnames row = Ok line -> row_fits fieldnames row = true.
Proof.
  unfold dict_to_list.
  destruct row as [| | | | | |pairs]; simpl; try discriminate.
  destruct (List.filter _ (dict_keys pairs)) eqn:Hf; [|discriminate].
  intros _. now apply filter_negb_nil_forallb.
Qed.

Lemma dict_to_list_Raise (fieldnames : list string) (row : json) (e : exn) :
  dict_to_list fieldnames row = Raise e ->
  e = AttributeError "keys" \/ e = ValueError.
Proof.
  unfold dict_to_list.
  destruct row as [| | | | | |pairs]; simpl; try (inversion 1; auto; fail).
  destruct (List.filter _ (dict_keys pairs)); inversion 1; auto.
Qed.

Lemma writerows_Ok_fits (fieldnames : list string) (rows : list json)
    (written lines : list (list json)) :
  writerows fieldnames rows written = (lines, Ok tt) ->
  forallb (row_fits fieldnames) rows = true.
Proof.
  revert written. induction rows as [|row rows IH]; intros written; simpl.
  - reflexivity.
  - destruct (dict_to_list fieldnames row) as [line|e] eqn:Hrow; [|discriminate].
    intros H. rewrite (dict_to_list_Ok_fits _ _ _ Hrow). simpl.
    apply (IH _ H).
Qed.

Lemma writerows_Raise (fieldnames : list string) (rows : list json)
    (written lines : list (list json)) (e : exn) :
  writerows fieldnames rows written = (lines, Raise e) ->
  e = AttributeError "keys" \/ e = ValueError.
Proof.
  revert written. induction rows as [|row rows IH]; intros written; simpl.
  - discriminate.
  - destruct (dict_to_list fieldnames row) as [line|e'] eqn:Hrow.
    + apply IH.
    + inversion 1; subst. apply (dict_to_list_Raise _ _ _ Hrow).
Qed.

Lemma csv_lines_Raise (results : json) (lines : list (list json)) (e : exn) :
  csv_lines results = (lines, Raise e) ->
  truthy results = true ->
  e = KeyErrorInt 0 \/ e = AttributeError "keys" \/ e = ValueError \/
  e = TypeError.
Proof.
  unfold csv_lines.
  destruct results as [| |z|q|s|items|pairs]; simpl;
    try (inversion 1; auto; fail).
  - destruct s; simpl; [discriminate|]. inversion 1; auto.
  - destruct items as [|x rest]; simpl; [discriminate|].
    destruct x as [| | | | | |first]; simpl; try (inversion 1; auto; fail).
    intros H _.
    change (writerows (dict_keys first) (JObj first :: rest)
              [map JStr (dict_keys first)] = (lines, Raise e)) in H.
    destruct (writerows_Raise _ _ _ _ _ H); auto.
Qed.

Lemma csv_lines_Raise_sized (results : json) (lines : list (list json))
    (e : exn) (n : nat) :
  csv_lines results = (lines, Raise e) ->
  truthy results = true ->
  py_len results = Ok n ->
  e = KeyErrorInt 0 \/ e = AttributeError "keys" \/ e = ValueError.
Proof.
  intros Hc Ht Hn.
  destruct (csv_lines_Raise _ _ _ Hc Ht) as [H|[H|[H|H]]]; auto.
  subst e. revert Hc. unfold csv_lines.
  destruct results as [| |z|q|s|items|pairs]; simpl in *; try discriminate.
  - destruct s; discriminate.
  - destruct items as [|x rest]; simpl; [discriminate|].
    destruct x as [| | | | | |first]; simpl; try discriminate.
    intros H.
    change (writerows (dict_keys first) (JObj first :: rest)
              [map JStr (dict_keys first)] = (lines, Raise TypeError)) in H.
    destruct (writerows_Raise _ _ _ _ _ H); discriminate.
Qed.

Lemma py_getitem_after_in (data : json) (key : string) (e : exn) :
  py_in key data = Ok true ->
  py_getitem data key = Raise e -> e = TypeError.
Proof.
  destruct data as [| | | | | |pairs]; simpl; try (now inversion 2).
  destruct (dict_get pairs key) as [v|]; [discriminate|].
  rewrite bool_decide_eq_false_2; [discriminate|].
  intros [v Hv]; discriminate.
Qed.


Ltac run_M :=
  unfold mbind, M_bind, mret, M_ret, save_csv, emit, time_time,
    subprocess_run_curl, lift; cbn [ticks calls trace fst snd].

(** The four outcomes of the [try] block on a parsed reply: an empty result;
    rows, with their file; a [TypeError] before any file of results; an
    exception inside the writing of the file, which is left behind. *)
Lemma process_cases (output_dir pipeline_type : string) (elapsed : Q)
    (data : json) (st st' : State) (res : result (json * Q)) :
  process output_dir pipeline_type elapsed data st = (st', res) ->
  (st' = st /\
   exists results : json,
     res = Ok (results, elapsed) /\ py_len results = Ok 0%nat /\
     ((py_in "results" data = Ok false /\ results = JArr []) \/
      py_getitem data "results" = Ok results))
  \/
  (exists (first : list (string * json)) (rest : list json),
     st' = mkState (ticks st) (calls st)
             (trace st ++
              [EvWrite (csv_file_of output_dir pipeline_type)
                 (CsvOut (map JStr (dict_keys first)
                          :: map (csv_cells (dict_keys first))
                               (JObj first :: rest)))]) /\
     res = Ok (JArr (JObj first :: rest), elapsed) /\
     forallb (row_fits (dict_keys first)) (JObj first :: rest) = true /\
     py_getitem data "results" = Ok (JArr (JObj first :: rest)))
  \/
  (st' = st /\ res = Raise TypeError)
  \/
  (exists (lines : list (list json)) (e : exn),
     st' = mkState (ticks st) (calls st)
             (trace st ++
              [EvWrite (csv_file_of output_dir pipeline_type) (CsvOut lines)]) /\
     res = Raise e /\
     (e = KeyErrorInt 0 \/ e = AttributeError "keys" \/ e = ValueError)).
Proof.
  unfold process. run_M.
  destruct (py_in "results" data) as [[|]|e] eqn:Hin; simpl.
  - destruct (py_getitem data "results") as [results|e] eqn:Hget; simpl.
    + destruct (py_len results) as [n|e] eqn:Hlen; simpl.
      * destruct (truthy results) eqn:Htruthy; simpl.
        -- destruct (csv_lines results) as [lines [[]|e]] eqn:Hcsv; simpl;
             inversion 1; subst.
           ++ right. left.
              destruct (csv_lines_Ok _ _ Hcsv) as (first & rest & -> & ->).
              exists first, rest. split; [reflexivity|]. split; [reflexivity|].
              split; [|reflexivity].
              unfold csv_lines in Hcsv.
              cbn [py_getitem_0 py_keys py_iter] in Hcsv.
              apply (writerows_Ok_fits _ _ _ _ Hcsv).
           ++ right. right. right. exists lines, e.
              split; [reflexivity|]. split; [reflexivity|].
              apply (csv_lines_Raise_sized _ _ _ _ Hcsv Htruthy Hlen).
        -- inversion 1; subst. left. split; [reflexivity|].
           exists results. split; [reflexivity|].
           rewrite (truthy_len _ _ Hlen) in Htruthy.
           destruct n; [auto | discriminate].
      * inversion 1; subst. right. right. left. split; [reflexivity|].
        destruct results; simpl in Hlen; try discriminate; now inversion Hlen.
    + inversion 1; subst. right. right. left. split; [reflexivity|].
      now rewrite (py_getitem_after_in _ _ _ Hin Hget).
  - inversion 1; subst. left. split; [reflexivity|].
    exists (JArr []). auto.
  - inversion 1; subst. right. right. left. split; [reflexivity|].
    destruct data; simpl in Hin; try discriminate; now inversion Hin.
Qed.

(** The [try] block never raises the exception its handler waits for. *)
Lemma process_never_JSONDecodeError (output_dir pipeline_type : string)
    (elapsed : Q) (data : json) (st st' : State) :
  process output_dir pipeline_type elapsed data st
    <> (st', Raise JSONDecodeError).
Proof.
  intros H.
  destruct (process_cases _ _ _ _ _ _ _ H)
    as [(_ & results & H' & _) | [(first & rest & _ & H' & _) |
         [(_ & H') | (lines & e & _ & H' & [He | [He | He]])]]];
    try discriminate; inversion H'; subst; discriminate.
Qed.

(** A call, step by step: the payload file, a clock reading, [curl], and,
    unless [subprocess.run] raised, a second reading and the handling of the
    reply. *)
Lemma run_single_pipeline_after_curl (env : Env) (pipeline_type : string)
    (companies : list Record_) (output_dir : string) (st : State) :
  run_single_pipeline env pipeline_type companies output_dir st =
  let tr :=
    (trace st ++
     [EvWrite (temp_file_of pipeline_type) (PayloadJson pipeline_type companies);
      EvCurl (temp_file_of pipeline_type) pipeline_type companies])%list in
  let st2 := mkState (S (S (ticks st))) (S (calls st)) tr in
  let elapsed := fsub env (clock env (S (ticks st))) (clock env (ticks st)) in
  match curl env (calls st) pipeline_type companies with
  | Raise e => (mkState (S (ticks st)) (S (calls st)) tr, Raise e)
  | Ok r =>
      if (returncode r =? 0)%Z then
        match json_loads env (stdout r) with
        | Ok data => process output_dir pipeline_type elapsed data st2
        | Raise JSONDecodeError => (st2, Ok (JArr [], elapsed))
        | Raise e => (st2, Raise e)
        end
      else (st2, Ok (JArr [], elapsed))
  end.
Proof.
  unfold run_single_pipeline. run_M. cbv zeta.
  assert (((trace st ++
            [EvWrite (temp_file_of pipeline_type)
               (PayloadJson pipeline_type companies)]) ++
           [EvCurl (temp_file_of pipeline_type) pipeline_type companies])%list
          = (trace st ++
             [EvWrite (temp_file_of pipeline_type)
                (PayloadJson pipeline_type companies);
              EvCurl (temp_file_of pipeline_type) pipeline_type companies])%list)
    as -> by now rewrite <- app_assoc.
  destruct (curl env (calls st) pipeline_type companies) as [r|e];
    [|reflexivity].
  cbn [ticks calls trace].
  destruct (returncode r =? 0)%Z; [|reflexivity].
  unfold try_except_JSONDecodeError. run_M.
  destruct (json_loads env (stdout r)) as [data|e].
  - match goal with
    | |- context [process ?o ?p ?el ?d ?s] =>
        change (match process o p el d s with
                | (st', Raise JSONDecodeError) => (st', Ok (JArr [], el))
                | other => other
                end = process o p el d s);
        pose proof (process_never_JSONDecodeError o p el d s) as Hnever;
        destruct (process o p el d s) as [st' [x|e]]
    end; [reflexivity|].
    destruct e; try reflexivity. now elim (Hnever st').
  - destruct e; reflexivity.
Qed.

(** What a call does when the outcome of [curl] is one of the three
    per-batch errors or a sequence of uniform-keyed rows. *)
Lemma run_single_pipeline_classified (env : Env) (pipeline_type : string)
    (companies : list Record_) (output_dir : string) (st : State) :
  let c := classify env (curl env (calls st) pipeline_type companies) in
  is_malformed c = false ->
  run_single_pipeline env pipeline_type companies output_dir st =
  (mkState (S (S (ticks st))) (S (calls st))
     (trace st ++
      [EvWrite (temp_file_of pipeline_type) (PayloadJson pipeline_type companies);
       EvCurl (temp_file_of pipeline_type) pipeline_type companies] ++
      csv_events output_dir pipeline_type (reply_rows c)),
   Ok (JArr (reply_rows c),
       fsub env (clock env (S (ticks st))) (clock env (ticks st)))).
Proof.
  intros c Hc. subst c. revert Hc.
  rewrite run_single_pipeline_after_curl. cbv zeta. unfold classify.
  destruct (curl env (calls st) pipeline_type companies) as [r|e];
    [|discriminate].
  destruct (returncode r =? 0)%Z; simpl;
    [|intros _; reflexivity].
  destruct (json_loads env (stdout r)) as [data|e]; simpl.
  2:{ destruct e; try discriminate. intros _. reflexivity. }
  unfold process. run_M.
  destruct (py_in "results" data) as [[|]|e] eqn:Hin; simpl;
    [| intros _; reflexivity | discriminate].
  destruct data as [| | | | | |pairs]; try discriminate.
  unfold py_getitem.
  destruct (dict_get pairs "results") as [[| | | | |rows|]|]; try discriminate.
  destruct (well_formed_rows rows) eqn:Hwf; [|discriminate].
  intros _. simpl.
  destruct rows as [|[| | | | | |first] rest]; try discriminate; simpl.
  - reflexivity.
  - rewrite (csv_lines_well_formed first rest Hwf). simpl.
    now rewrite <- !app_assoc.
Qed.

(** The outcomes of a call: [subprocess.run] raises; an empty result; rows,
    with their file; an exception before any file of results; an exception
    inside the writing of the file, which is left behind. *)
Lemma run_single_pipeline_cases (env : Env) (pipeline_type : string)
    (companies : list Record_) (output_dir : string) (st st' : State)
    (res : result (json * Q)) :
  run_single_pipeline env pipeline_type companies output_dir st = (st', res) ->
  let w := EvWrite (temp_file_of pipeline_type)
             (PayloadJson pipeline_type companies) in
  let c := EvCurl (temp_file_of pipeline_type) pipeline_type companies in
  let elapsed := fsub env (clock env (S (ticks st))) (clock env (ticks st)) in
  calls st' = S (calls st) /\
  ((exists e : exn,
      curl env (calls st) pipeline_type companies = Raise e /\
      ticks st' = S (ticks st) /\
      trace st' = (trace st ++ [w; c])%list /\ res = Raise e)
   \/
   (ticks st' = S (S (ticks st)) /\
    trace st' = (trace st ++ [w; c])%list /\
    exists results : json, res = Ok (results, elapsed) /\ py_len results = Ok 0%nat)
   \/
   (ticks st' = S (S (ticks st)) /\
    exists (first : list (string * json)) (rest : list json),
      trace st' =
        (trace st ++
         [w; c;
          EvWrite (csv_file_of output_dir pipeline_type)
            (CsvOut (map JStr (dict_keys first)
                     :: map (csv_cells (dict_keys first)) (JObj first :: rest)))])%list /\
      res = Ok (JArr (JObj first :: rest), elapsed) /\
      forallb (row_fits (dict_keys first)) (JObj first :: rest) = true)
   \/
   (ticks st' = S (S (ticks st)) /\
    trace st' = (trace st ++ [w; c])%list /\ exists e : exn, res = Raise e)
   \/
   (ticks st' = S (S (ticks st)) /\
    exists (lines : list (list json)) (e : exn),
      trace st' =
        (trace st ++
         [w; c; EvWrite (csv_file_of output_dir pipeline_type) (CsvOut lines)])%list /\
      res = Raise e /\
      (e = KeyErrorInt 0 \/ e = AttributeError "keys" \/ e = ValueError))).
Proof.
  rewrite run_single_pipeline_after_curl. cbv zeta.
  destruct (curl env (calls st) pipeline_type companies) as [r|e].
  2:{ inversion 1; subst; simpl. split; [reflexivity|]. left. eauto. }
  assert (forall st0 res0,
             (mkState (S (S (ticks st))) (S (calls st))
                (trace st ++
                 [EvWrite (temp_file_of pipeline_type)
                    (PayloadJson pipeline_type companies);
                  EvCurl (temp_file_of pipeline_type) pipeline_type companies]),
              @Ok (json * Q)
                (JArr [],
                 fsub env (clock env (S (ticks st))) (clock env (ticks st))))
             = (st0, res0) ->
             calls st0 = S (calls st) /\
             ticks st0 = S (S (ticks st)) /\
             trace st0 =
               (trace st ++
                [EvWrite (temp_file_of pipeline_type)
                   (PayloadJson pipeline_type companies);
                 EvCurl (temp_file_of pipeline_type) pipeline_type companies])%list /\
             exists results : json,
               res0 = Ok (results,
                          fsub env (clock env (S (ticks st)))
                            (clock env (ticks st))) /\
               py_len results = Ok 0%nat) as Hempty.
  { inversion 1; subst; simpl. repeat split. exists (JArr []). auto. }
  destruct (returncode r =? 0)%Z.
  2:{ intros H. destruct (Hempty _ _ H) as (Hc & Hrest).
      split; [exact Hc|]. right. left. exact Hrest. }
  destruct (json_loads env (stdout r)) as [data|e].
  2:{ destruct e;
        try (inversion 1; subst; simpl; split; [reflexivity|];
             right; right; right; left; eauto; fail).
      intros H. destruct (Hempty _ _ H) as (Hc & Hrest).
      split; [exact Hc|]. right. left. exact Hrest. }
  intros H.
  destruct (process_cases _ _ _ _ _ _ _ H)
    as [(-> & results & -> & Hlen & _) | [(first & rest & -> & -> & Hfits & _) |
         [(-> & ->) | (lines & e & -> & -> & He)]]]; simpl;
    (split; [reflexivity|]).
  - right. left. eauto.
  - right. right. left. split; [reflexivity|]. exists first, rest.
    split; [now rewrite <- app_assoc|]. auto.
  - right. right. right. left. eauto.
  - right. right. right. right. split; [reflexivity|]. exists lines, e.
    split; [now rewrite <- app_assoc|]. auto.
Qed.

(** What every call does, whatever the outcome: one [curl] call with the
    batch it was given; and if it returns, two clock readings, a result
    whose length can be taken and the elapsed time of the call. *)
Lemma run_single_pipeline_shape (env : Env) (pipeline_type : string)
    (companies : list Record_) (output_dir : string) (st st' : State)
    (res : result (json * Q)) :
  run_single_pipeline env pipeline_type companies output_dir st = (st', res) ->
  calls st' = S (calls st) /\
  (exists ws : list event,
     trace st' = (trace st ++ ws)%list /\
     submissions ws = [(pipeline_type, companies)]) /\
  forall (results : json) (elapsed : Q),
    res = Ok (results, elapsed) ->
    ticks st' = S (S (ticks st)) /\
    (exists n : nat, py_len results = Ok n) /\
    elapsed = fsub env (clock env (S (ticks st))) (clock env (ticks st)).
Proof.
  intros Hrun.
  destruct (run_single_pipeline_cases _ _ _ _ _ _ _ Hrun)
    as (Hc & [(e & _ & _ & Htr & ->) | [(Ht & Htr & results0 & -> & Hlen) |
         [(Ht & first & rest & Htr & -> & _) | [(_ & Htr & e & ->) |
           (_ & lines & e & Htr & -> & _)]]]]);
    (split; [exact Hc|]); (split; [eexists; split; [exact Htr | reflexivity]|]);
    intros results elapsed H; inversion H; subst.
  - split; [exact Ht|]. eauto.
  - split; [exact Ht|]. split; [|reflexivity]. eexists. reflexivity.
Qed.

Lemma dict_get_absent (pairs : list (string * json)) (key : string) :
  ~ In key (map fst pairs) -> dict_get pairs key = None.
Proof.
  induction pairs as [|[k v] pairs IH]; simpl; [reflexivity|].
  intros H. rewrite IH by tauto.
  destruct (String.eqb_spec k key) as [->|_]; [tauto | reflexivity].
Qed.

Lemma is_str_absent (key : string) (items : list json) :
  ~ In (JStr key) items -> existsb (is_str key) items = false.
Proof.
  induction items as [|x items IH]; simpl; [reflexivity|].
  intros H. rewrite IH by tauto.
  destruct x as [| | | |s| |]; simpl; try reflexivity.
  destruct (String.eqb_spec s key) as [->|_]; [tauto | reflexivity].
Qed.

Lemma contains_true_split (sub s : string) :
  PyStr.contains sub s = true -> exists a b : string, s = a +:+ sub +:+ b.
Proof.
  induction s as [|c s IH]; cbn [PyStr.contains]; intros H.
  - rewrite orb_false_r in H. destruct (prefix_true_split _ _ H) as [b Hb].
    now exists "", b.
  - apply orb_true_iff in H as [H|H].
    + destruct (prefix_true_split _ _ H) as [b Hb]. now exists "", b.
    + destruct (IH H) as (a & b & ->). now exists (String c a), b.
Qed.

(** On a reply without [results] the test of line 51 is false. *)
Lemma LacksResults_py_in (data : json) :
  LacksResults data -> py_in "results" data = Ok false.
Proof.
  intros [pairs H | items H | s H]; simpl.
  - rewrite (dict_get_absent _ _ H).
    rewrite bool_decide_eq_false_2; [reflexivity|]. intros [v Hv]; discriminate.
  - now rewrite (is_str_absent _ _ H).
  - destruct (PyStr.contains "results" s) eqn:Hc; [|reflexivity].
    destruct (contains_true_split _ _ Hc) as (a & b & Hs). now elim (H a b).
Qed.

(** C7 (as stated, refuted).  The reply [null] is a parsed response without
    a [results] field, and the test of line 51 raises [TypeError] on it; on a
    reply that opens 2000 arrays, which is not valid JSON, [json.loads]
    raises [RecursionError], which line 68 does not catch.  In both cases
    the call raises instead of returning the empty sequence. *)
Lemma C7_counterexample :
  curl Sample.null_env 0 "core" Sample.example_records
    = Ok (mkCompleted 0 "null" "") /\
  json_loads Sample.null_env "null" = Ok JNull /\
  run_single_pipeline Sample.null_env "core" Sample.example_records output_dir
    (mkState 1 0 [EvMkdir output_dir]) =
    (mkState 3 1
       [EvMkdir output_dir;
        EvWrite "/tmp/core_payload.json" (PayloadJson "core" Sample.example_records);
        EvCurl "/tmp/core_payload.json" "core" Sample.example_records],
     Raise TypeError) /\
  json_loads Sample.deep_env
    (stdout (mkCompleted 0 Sample.deep_body "")) = Raise RecursionError /\
  run_single_pipeline Sample.deep_env "core" Sample.example_records output_dir
    (mkState 1 0 [EvMkdir output_dir]) =
    (mkState 3 1
       [EvMkdir output_dir;
        EvWrite "/tmp/core_payload.json" (PayloadJson "core" Sample.example_records);
        EvCurl "/tmp/core_payload.json" "core" Sample.example_records],
     Raise RecursionError).
Proof. repeat split; vm_compute; reflexivity. Qed.

(** C7 (amended).  When [subprocess.run] returns and the transport call
    failed (non-zero exit status), or [json.loads] rejects the body with
    [JSONDecodeError], or the parsed reply is an object without the key
    [results] (or an array without the element ['results'], or a string in
    which [results] does not occur), the Batch Submitter returns the empty
    sequence with the elapsed time of the call, and the only file it writes
    is the payload file: no results file for that mode. *)
Theorem C7_batch_errors_return_empty (env : Env) (pipeline_type : string)
    (companies : list Record_) (output_dir : string) (st : State)
    (r : CompletedProcess) :
  curl env (calls st) pipeline_type companies = Ok r ->
  (returncode r <> 0%Z \/
   json_loads env (stdout r) = Raise JSONDecodeError \/
   exists data : json,
     json_loads env (stdout r) = Ok data /\ LacksResults data) ->
  exists st' : State,
    run_single_pipeline env pipeline_type companies output_dir st =
      (st', Ok (JArr [],
                fsub env (clock env (S (ticks st))) (clock env (ticks st)))) /\
    trace st' =
      (trace st ++
       [EvWrite ("/tmp/" +:+ pipeline_type +:+ "_payload.json")
          (PayloadJson pipeline_type companies);
        EvCurl ("/tmp/" +:+ pipeline_type +:+ "_payload.json")
          pipeline_type companies])%list /\
    ~ In (output_dir +:+ "/" +:+ pipeline_type +:+ "-pipeline-results.csv")
         (written_paths
            [EvWrite ("/tmp/" +:+ pipeline_type +:+ "_payload.json")
               (PayloadJson pipeline_type companies);
             EvCurl ("/tmp/" +:+ pipeline_type +:+ "_payload.json")
               pipeline_type companies]).
Proof.
  intros Hcurl H.
  pose proof (run_single_pipeline_classified env pipeline_type companies
                output_dir st) as Hrun.
  cbv zeta in Hrun. rewrite Hcurl in Hrun.
  assert (is_malformed (classify env (Ok r)) = false /\
          reply_rows (classify env (Ok r)) = []) as [Hm Hr].
  { unfold classify. destruct (Z.eqb_spec (returncode r) 0) as [Hz|Hz]; simpl;
      [|split; reflexivity].
    destruct H as [H | [H | (data & H & Hlacks)]]; [contradiction| |].
    - rewrite H. split; reflexivity.
    - rewrite H, (LacksResults_py_in _ Hlacks). split; reflexivity. }
  rewrite Hr in Hrun. specialize (Hrun Hm). simpl in Hrun.
  eexists. split; [exact Hrun|]. split; [reflexivity|].
  simpl. intros [Heq|[]].
  now apply (temp_file_not_csv_file output_dir pipeline_type).
Qed.

Lemma C7_witness :
  exists st' : State,
    run_single_pipeline Sample.mixed_env "advanced" Sample.example_records
      output_dir (mkState 3 1 []) =
      (st', Ok (JArr [],
                fsub Sample.mixed_env (clock Sample.mixed_env 4)
                  (clock Sample.mixed_env 3))) /\
    trace st' =
      ([] ++
       [EvWrite ("/tmp/" +:+ "advanced" +:+ "_payload.json")
          (PayloadJson "advanced" Sample.example_records);
        EvCurl ("/tmp/" +:+ "advanced" +:+ "_payload.json")
          "advanced" Sample.example_records])%list /\
    ~ In (output_dir +:+ "/" +:+ "advanced" +:+ "-pipeline-results.csv")
         (written_paths
            [EvWrite ("/tmp/" +:+ "advanced" +:+ "_payload.json")
               (PayloadJson "advanced" Sample.example_records);
             EvCurl ("/tmp/" +:+ "advanced" +:+ "_payload.json")
               "advanced" Sample.example_records]).
Proof.
  apply (C7_batch_errors_return_empty Sample.mixed_env "advanced"
           Sample.example_records output_dir (mkState 3 1 [])
           (mkCompleted 28 "" "Operation timed out")).
  - reflexivity.
  - left. simpl. discriminate.
Defined.

Lemma dict_keys_In (pairs : list (string * json)) (k : string) :
  In k (dict_keys pairs) <-> In k (map fst pairs).
Proof.
  induction pairs as [|[k0 v0] pairs IH]; simpl; [tauto|].
  rewrite filter_In, IH.
  destruct (String.eqb_spec k k0) as [->|Hne]; simpl; [tauto|].
  intuition congruence.
Qed.

Lemma dict_keys_NoDup (pairs : list (string * json)) : List.NoDup (dict_keys pairs).
Proof.
  induction pairs as [|[k0 v0] pairs IH]; simpl; constructor.
  - rewrite filter_In, String.eqb_refl. simpl. intros [_ H]; discriminate.
  - now apply List.NoDup_filter.
Qed.

Lemma filter_keeps_all {A : Type} (f : A -> bool) (l : list A) :
  (forall x : A, In x l -> f x = true) -> List.filter f l = l.
Proof.
  induction l as [|x l IH]; simpl; [reflexivity|]. intros H.
  rewrite (H x) by auto. f_equal. apply IH. auto.
Qed.

(** Without a repeated key, the keys of an object are those of its pairs,
    in their order. *)
Lemma dict_keys_distinct (pairs : list (string * json)) :
  List.NoDup (map fst pairs) -> dict_keys pairs = map fst pairs.
Proof.
  induction pairs as [|[k0 v0] pairs IH]; simpl; [reflexivity|].
  intros H. apply List.NoDup_cons_iff in H as [Hk Hrest].
  rewrite (IH Hrest). f_equal. apply filter_keeps_all.
  intros x Hx. destruct (String.eqb_spec x k0) as [->|_]; [contradiction|].
  reflexivity.
Qed.

(** C5 (as stated, refuted).  The second row of the reply has a key the
    first row lacks: [writerows] raises [ValueError] on it and the call
    returns nothing, yet the results file has been written, with the header
    and one data row. *)
Lemma C5_counterexample :
  json_loads Sample2.ragged_env Sample2.ragged_body
    = Ok (JObj
            [("results",
              JArr [JObj [("company", JStr "Example")];
                    JObj [("company", JStr "Acme"); ("score", JInt 7)]])]) /\
  run_single_pipeline Sample2.ragged_env "core" Sample.example_records
    output_dir (mkState 1 0 [EvMkdir output_dir]) =
    (mkState 3 1
       [EvMkdir output_dir;
        EvWrite "/tmp/core_payload.json" (PayloadJson "core" Sample.example_records);
        EvCurl "/tmp/core_payload.json" "core" Sample.example_records;
        EvWrite "/Users/rosssylvester/Desktop/FINAL/core-pipeline-results.csv"
          (CsvOut [[JStr "company"]; [JStr "Example"]])],
     Raise ValueError).
Proof. split; vm_compute; reflexivity. Qed.

(** C5 (amended).  When a call returns, the file
    [<output_dir>/<mode>-pipeline-results.csv] is written if and only if the
    returned sequence is not empty; it is then written once, its header is
    the key sequence of the first returned row, in that row's key order, and
    it has one data row per returned row.  In particular, on a reply whose
    [results] is the empty list the call returns the empty sequence and
    writes no results file. *)
Theorem C5_results_file (env : Env) (pipeline_type : string)
    (companies : list Record_) (output_dir : string) (st : State) :
  (forall (st' : State) (results : json) (elapsed : Q),
     run_single_pipeline env pipeline_type companies output_dir st
       = (st', Ok (results, elapsed)) ->
     exists (n : nat) (ws : list event),
       py_len results = Ok n /\
       trace st' = (trace st ++ ws)%list /\
       (In (output_dir +:+ "/" +:+ pipeline_type +:+ "-pipeline-results.csv")
           (written_paths ws) <-> (0 < n)%nat) /\
       ((0 < n)%nat ->
        exists (first : list (string * json)) (rest : list json)
               (keys : list string) (data : list (list json)),
          results = JArr (JObj first :: rest) /\
          ws = [EvWrite ("/tmp/" +:+ pipeline_type +:+ "_payload.json")
                  (PayloadJson pipeline_type companies);
                EvCurl ("/tmp/" +:+ pipeline_type +:+ "_payload.json")
                  pipeline_type companies;
                EvWrite
                  (output_dir +:+ "/" +:+ pipeline_type +:+ "-pipeline-results.csv")
                  (CsvOut (map JStr keys :: data))] /\
          (forall k : string, In k keys <-> In k (map fst first)) /\
          List.NoDup keys /\
          (List.NoDup (map fst first) -> keys = map fst first) /\
          data = map (csv_cells keys) (JObj first :: rest) /\
          length data = n)) /\
  (forall (r : CompletedProcess) (pairs : list (string * json)),
     curl env (calls st) pipeline_type companies = Ok r ->
     returncode r = 0%Z ->
     json_loads env (stdout r) = Ok (JObj pairs) ->
     dict_get pairs "results" = Some (JArr []) ->
     run_single_pipeline env pipeline_type companies output_dir st =
       (mkState (S (S (ticks st))) (S (calls st))
          (trace st ++
           [EvWrite ("/tmp/" +:+ pipeline_type +:+ "_payload.json")
              (PayloadJson pipeline_type companies);
            EvCurl ("/tmp/" +:+ pipeline_type +:+ "_payload.json")
              pipeline_type companies]),
        Ok (JArr [],
            fsub env (clock env (S (ticks st))) (clock env (ticks st))))).
Proof.
  pose proof (temp_file_not_csv_file output_dir pipeline_type) as Hne.
  unfold temp_file_of, csv_file_of in Hne.
  split.
  - intros st' results elapsed Hrun.
    destruct (run_single_pipeline_cases _ _ _ _ _ _ _ Hrun)
      as (_ & [(e & _ & _ & _ & H) | [(_ & Htr & results0 & H & Hlen) |
           [(_ & first & rest & Htr & H & _) | [(_ & _ & e & H) |
             (_ & lines & e & _ & H & _)]]]]); try discriminate;
      inversion H; subst.
    + exists 0%nat. eexists. split; [exact Hlen|]. split; [exact Htr|].
      split; [|lia]. simpl. split; [|lia]. intros [Heq|[]]. now elim Hne.
    + exists (S (length rest)). eexists. split; [reflexivity|].
      split; [exact Htr|]. split.
      * simpl. split; [lia|]. intros _. right. now left.
      * intros _. exists first, rest, (dict_keys first). eexists.
        split; [reflexivity|]. split; [reflexivity|].
        split; [apply dict_keys_In|]. split; [apply dict_keys_NoDup|].
        split; [apply dict_keys_distinct|]. split; [reflexivity|].
        simpl. now rewrite length_map.
  - intros r pairs Hcurl Hrc Hjson Hget.
    rewrite run_single_pipeline_after_curl. cbv zeta.
    rewrite Hcurl, Hrc, Hjson. simpl.
    unfold process. run_M. simpl. rewrite Hget.
    rewrite bool_decide_eq_true_2 by eauto. simpl.
    reflexivity.
Qed.

(** ** Run Orchestrator *)

Lemma submissions_app (tr1 tr2 : list event) :
  submissions (tr1 ++ tr2) = (submissions tr1 ++ submissions tr2)%list.
Proof. unfold submissions. apply omap_app. Qed.

(** A loader failure ends the run at once. *)
Lemma main_load_fails (env : Env) (e : exn) :
  load_companies (files env) input_file None = Raise e ->
  main env initial = (mkState 0 0 [EvMkdir output_dir], Raise e).
Proof. intros H. unfold main. run_M. rewrite H. reflexivity. Qed.

(** The steps of a run once the records are loaded. *)
Lemma main_steps (env : Env) (recs : list Record_) :
  load_companies (files env) input_file None = Ok recs ->
  main env initial =
  match run_single_pipeline env "core" recs output_dir
          (mkState 1 0 [EvMkdir output_dir]) with
  | (st1, Raise e) => (st1, Raise e)
  | (st1, Ok (core_results, _)) =>
      match run_single_pipeline env "advanced" (take 100 recs) output_dir st1 with
      | (st2, Raise e) => (st2, Raise e)
      | (st2, Ok (advanced_results, _)) =>
          match run_single_pipeline env "powerhouse" (take 10 recs) output_dir st2 with
          | (st3, Raise e) => (st3, Raise e)
          | (st3, Ok (powerhouse_results, _)) =>
              finish env (clock env 0) core_results advanced_results
                powerhouse_results st3
          end
      end
  end.
Proof.
  intros H. unfold main, finish. run_M. rewrite H. simpl.
  destruct (run_single_pipeline env "core" recs output_dir _)
    as [st1 [[core_results core_time]|e]]; [|reflexivity].
  destruct (run_single_pipeline env "advanced" _ output_dir st1)
    as [st2 [[advanced_results advanced_time]|e]]; [|reflexivity].
  destruct (run_single_pipeline env "powerhouse" _ output_dir st2)
    as [st3 [[powerhouse_results powerhouse_time]|e]]; reflexivity.
Qed.

Lemma finish_Ok (env : Env) (total_start : Q) (r1 r2 r3 : json)
    (n1 n2 n3 : nat) (st : State) :
  py_len r1 = Ok n1 -> py_len r2 = Ok n2 -> py_len r3 = Ok n3 ->
  finish env total_start r1 r2 r3 st =
  (mkState (S (ticks st)) (calls st)
     (trace st ++
      [EvWrite (output_dir +:+ "/summary.json")
         (SummaryJson
            (mkSummary n1 n2 n3
               (round1 env (fdiv env (fsub env (clock env (ticks st)) total_start) 60))))]),
   Ok tt).
Proof.
  intros H1 H2 H3. unfold finish. run_M. now rewrite H1, H2, H3.
Qed.


(** The batches of a run are posted in the order of lines 90-92, each with
    its slice of the loaded records; a run that ends normally has posted all
    three. *)
Lemma main_submissions (env : Env) (recs : list Record_) (st' : State)
    (res : result unit) :
  load_companies (files env) input_file None = Ok recs ->
  main env initial = (st', res) ->
  (exists k : nat,
     submissions (trace st') = take (S k) (three_batches recs)) /\
  (res = Ok tt -> submissions (trace st') = three_batches recs).
Proof.
  intros Hload. rewrite (main_steps env recs Hload).
  destruct (run_single_pipeline env "core" recs output_dir _)
    as [st1 r1] eqn:H1.
  destruct (run_single_pipeline_shape _ _ _ _ _ _ _ H1)
    as (_ & (ws1 & Ht1 & Hs1) & Hr1).
  assert (submissions (trace st1) = [("core", recs)]) as Hsub1.
  { rewrite Ht1, submissions_app, Hs1. reflexivity. }
  destruct r1 as [[core_results core_time]|e];
    [|inversion 1; subst; split; [now exists 0%nat | discriminate]].
  destruct (Hr1 _ _ eq_refl) as (_ & [n1 Hn1] & _).
  destruct (run_single_pipeline env "advanced" _ output_dir st1)
    as [st2 r2] eqn:H2.
  destruct (run_single_pipeline_shape _ _ _ _ _ _ _ H2)
    as (_ & (ws2 & Ht2 & Hs2) & Hr2).
  assert (submissions (trace st2) =
          [("core", recs); ("advanced", take 100 recs)]) as Hsub2.
  { rewrite Ht2, submissions_app, Hs2, Hsub1. reflexivity. }
  destruct r2 as [[advanced_results advanced_time]|e];
    [|inversion 1; subst; split; [now exists 1%nat | discriminate]].
  destruct (Hr2 _ _ eq_refl) as (_ & [n2 Hn2] & _).
  destruct (run_single_pipeline env "powerhouse" _ output_dir st2)
    as [st3 r3] eqn:H3.
  destruct (run_single_pipeline_shape _ _ _ _ _ _ _ H3)
    as (_ & (ws3 & Ht3 & Hs3) & Hr3).
  assert (submissions (trace st3) = three_batches recs) as Hsub3.
  { rewrite Ht3, submissions_app, Hs3, Hsub2. reflexivity. }
  destruct r3 as [[powerhouse_results powerhouse_time]|e];
    [|inversion 1; subst; split; [now exists 2%nat | discriminate]].
  destruct (Hr3 _ _ eq_refl) as (_ & [n3 Hn3] & _).
  rewrite (finish_Ok env _ _ _ _ n1 n2 n3 st3 Hn1 Hn2 Hn3).
  inversion 1; subst. simpl.
  rewrite submissions_app, Hsub3.
  split; [now exists 2%nat | reflexivity].
Qed.

(** C6 (as stated, refuted).  The two rows of the file load, but the first
    reply carries a number where the result rows should be: the run ends on
    [TypeError] after the [core] batch, and the [advanced] and [powerhouse]
    batches are never posted. *)
Lemma C6_counterexample :
  load_companies (files Sample.malformed_env) input_file None
    = Ok Sample.example_records /\
  exists st : State,
    main Sample.malformed_env initial = (st, Raise TypeError) /\
    submissions (trace st) = [("core", Sample.example_records)].
Proof.
  split; [vm_compute; reflexivity|].
  eexists. split; vm_compute; reflexivity.
Qed.

(** C6 (amended).  When the input file has [N] data rows and they all load,
    a run that ends normally has posted [core] with all [N] records, then
    [advanced] with the first [min N 100], then [powerhouse] with the first
    [min N 10], in that order and in row order; a run stopped by an
    exception has posted a leading part of that sequence, [core]
    included. *)
Theorem C6_batches (env : Env) (lines : list (list string))
    (recs : list Record_) (st' : State) (res : result unit) :
  files env !! input_file = Some lines ->
  load_companies (files env) input_file None = Ok recs ->
  main env initial = (st', res) ->
  length recs = length (DictReader lines) /\
  (forall (i : nat) (r : Record_), recs !! i = Some r ->
     exists row : gmap string cell,
       DictReader lines !! i = Some row /\ row_to_record row = Ok r) /\
  (res = Ok tt ->
   submissions (trace st') =
     [("core", recs); ("advanced", take 100 recs); ("powerhouse", take 10 recs)]) /\
  (exists k : nat,
     submissions (trace st') =
       take (S k)
         [("core", recs); ("advanced", take 100 recs);
          ("powerhouse", take 10 recs)]) /\
  length (take 100 recs) = (100 `min` length (DictReader lines))%nat /\
  length (take 10 recs) = (10 `min` length (DictReader lines))%nat.
Proof.
  intros Hf Hload Hmain.
  assert (length recs = length (DictReader lines)) as Hlen.
  { pose proof (load_companies_traverse _ _ None _ Hf) as Ht.
    rewrite Hload in Ht. simpl in Ht. rewrite firstn_all in Ht.
    symmetry in Ht. apply (traverse_Ok_length _ _ _ Ht). }
  destruct (main_submissions env recs st' res Hload Hmain) as [Hk Hall].
  split; [exact Hlen|].
  split; [apply (load_companies_lookup _ _ _ _ _ Hf Hload)|].
  split; [exact Hall|]. split; [exact Hk|].
  rewrite !length_take, Hlen. split; reflexivity.
Qed.




(** C3 (as stated, refuted).  Each call takes 0.99 s and 0.01 s pass between
    two clock readings outside the calls: the three elapsed times add up to
    2.97 s, which rounds to 0.0 minutes, and the summary records 0.1. *)
Lemma C3_counterexample :
  exists (st1 st2 st3 st : State) (r1 r2 r3 : json) (e1 e2 e3 : Q) (s : Summary),
    run_single_pipeline Sample.mixed_env "core" Sample.example_records
      output_dir (mkState 1 0 [EvMkdir output_dir]) = (st1, Ok (r1, e1)) /\
    run_single_pipeline Sample.mixed_env "advanced"
      (take 100 Sample.example_records) output_dir st1 = (st2, Ok (r2, e2)) /\
    run_single_pipeline Sample.mixed_env "powerhouse"
      (take 10 Sample.example_records) output_dir st2 = (st3, Ok (r3, e3)) /\
    main Sample.mixed_env initial = (st, Ok tt) /\
    last (trace st) =
      Some (EvWrite (output_dir +:+ "/summary.json") (SummaryJson s)) /\
    (e1 + e2 + e3 == 297 # 100)%Q /\
    (round1 Sample.mixed_env (fdiv Sample.mixed_env (e1 + e2 + e3) 60) == 0)%Q /\
    (total_time_minutes s == 1 # 10)%Q.
Proof.
  do 11 eexists.
  split; [vm_compute; reflexivity|].
  split; [vm_compute; reflexivity|].
  split; [vm_compute; reflexivity|].
  split; [vm_compute; reflexivity|].
  split; [vm_compute; reflexivity|].
  repeat split.
Qed.

(** C3 (amended).  In a run that ends normally, [total_time_minutes] is
    [round((t_end - t_start) / 60, 1)], where [t_start] is the clock reading
    taken before the first batch and [t_end] the one taken after the third.
    The three elapsed times the Batch Submitter returns, each the difference
    of the two readings around its [curl] call, are not used. *)
Theorem C3_total_time (env : Env) (st' : State) :
  main env initial = (st', Ok tt) ->
  exists (recs : list Record_) (st1 st2 st3 : State) (r1 r2 r3 : json)
         (e1 e2 e3 : Q) (s : Summary),
    load_companies (files env) input_file None = Ok recs /\
    run_single_pipeline env "core" recs output_dir
      (mkState 1 0 [EvMkdir output_dir]) = (st1, Ok (r1, e1)) /\
    run_single_pipeline env "advanced" (take 100 recs) output_dir st1
      = (st2, Ok (r2, e2)) /\
    run_single_pipeline env "powerhouse" (take 10 recs) output_dir st2
      = (st3, Ok (r3, e3)) /\
    e1 = fsub env (clock env 2) (clock env 1) /\
    e2 = fsub env (clock env 4) (clock env 3) /\
    e3 = fsub env (clock env 6) (clock env 5) /\
    last (trace st') =
      Some (EvWrite (output_dir +:+ "/summary.json") (SummaryJson s)) /\
    total_time_minutes s =
      round1 env (fdiv env (fsub env (clock env 7) (clock env 0)) 60).
Proof.
  intros Hmain.
  destruct (load_companies (files env) input_file None) as [recs|e] eqn:Hload;
    [|rewrite (main_load_fails env e Hload) in Hmain; discriminate].
  rewrite (main_steps env recs Hload) in Hmain.
  destruct (run_single_pipeline env "core" recs output_dir _)
    as [st1 [[r1 e1]|e]] eqn:H1; [|discriminate].
  destruct (run_single_pipeline_shape _ _ _ _ _ _ _ H1) as (_ & _ & Hr1).
  destruct (Hr1 _ _ eq_refl) as (Ht1 & [n1 Hn1] & He1).
  destruct (run_single_pipeline env "advanced" _ output_dir st1)
    as [st2 [[r2 e2]|e]] eqn:H2; [|discriminate].
  destruct (run_single_pipeline_shape _ _ _ _ _ _ _ H2) as (_ & _ & Hr2).
  destruct (Hr2 _ _ eq_refl) as (Ht2 & [n2 Hn2] & He2).
  destruct (run_single_pipeline env "powerhouse" _ output_dir st2)
    as [st3 [[r3 e3]|e]] eqn:H3; [|discriminate].
  destruct (run_single_pipeline_shape _ _ _ _ _ _ _ H3) as (_ & _ & Hr3).
  destruct (Hr3 _ _ eq_refl) as (Ht3 & [n3 Hn3] & He3).
  rewrite (finish_Ok env _ _ _ _ n1 n2 n3 st3 Hn1 Hn2 Hn3) in Hmain.
  injection Hmain as Hst. subst st'.
  cbn [ticks] in Ht1. rewrite Ht1 in Ht2, He2. rewrite Ht2 in Ht3, He3.
  cbn [ticks] in He1. rewrite Ht3.
  exists recs, st1, st2, st3, r1, r2, r3, e1, e2, e3.
  eexists. repeat (split; [first [reflexivity | eassumption]|]).
  split; [apply last_snoc | reflexivity].
Qed.

Lemma C3_witness :
  exists (recs : list Record_) (st1 st2 st3 : State) (r1 r2 r3 : json)
         (e1 e2 e3 : Q) (s : Summary),
    load_companies (files Sample.mixed_env) input_file None = Ok recs /\
    run_single_pipeline Sample.mixed_env "core" recs output_dir
      (mkState 1 0 [EvMkdir output_dir]) = (st1, Ok (r1, e1)) /\
    run_single_pipeline Sample.mixed_env "advanced" (take 100 recs) output_dir st1
      = (st2, Ok (r2, e2)) /\
    run_single_pipeline Sample.mixed_env "powerhouse" (take 10 recs) output_dir st2
      = (st3, Ok (r3, e3)) /\
    e1 = fsub Sample.mixed_env (clock Sample.mixed_env 2) (clock Sample.mixed_env 1) /\
    e2 = fsub Sample.mixed_env (clock Sample.mixed_env 4) (clock Sample.mixed_env 3) /\
    e3 = fsub Sample.mixed_env (clock Sample.mixed_env 6) (clock Sample.mixed_env 5) /\
    last (trace (main Sample.mixed_env initial).1) =
      Some (EvWrite (output_dir +:+ "/summary.json") (SummaryJson s)) /\
    total_time_minutes s =
      round1 Sample.mixed_env
        (fdiv Sample.mixed_env
           (fsub Sample.mixed_env (clock Sample.mixed_env 7)
              (clock Sample.mixed_env 0)) 60).
Proof.
  apply (C3_total_time Sample.mixed_env (main Sample.mixed_env initial).1).
  vm_compute. reflexivity.
Defined.

Lemma C5_witness :
  exists (n : nat) (ws : list event),
    py_len (JArr [JObj [("company", JStr "Example"); ("score", JInt 7)];
                  JObj [("company", JStr "Acme")]]) = Ok n /\
    trace (run_single_pipeline Sample.mixed_env "core" Sample.example_records
             output_dir (mkState 1 0 [EvMkdir output_dir])).1 =
      ([EvMkdir output_dir] ++ ws)%list /\
    (In (output_dir +:+ "/" +:+ "core" +:+ "-pipeline-results.csv")
        (written_paths ws) <-> (0 < n)%nat) /\
    ((0 < n)%nat ->
     exists (first : list (string * json)) (rest : list json)
            (keys : list string) (data : list (list json)),
       JArr [JObj [("company", JStr "Example"); ("score", JInt 7)];
             JObj [("company", JStr "Acme")]] = JArr (JObj first :: rest) /\
       ws = [EvWrite ("/tmp/" +:+ "core" +:+ "_payload.json")
               (PayloadJson "core" Sample.example_records);
             EvCurl ("/tmp/" +:+ "core" +:+ "_payload.json")
               "core" Sample.example_records;
             EvWrite (output_dir +:+ "/" +:+ "core" +:+ "-pipeline-results.csv")
               (CsvOut (map JStr keys :: data))] /\
       (forall k : string, In k keys <-> In k (map fst first)) /\
       List.NoDup keys /\
       (List.NoDup (map fst first) -> keys = map fst first) /\
       data = map (csv_cells keys) (JObj first :: rest) /\
       length data = n).
Proof.
  apply (proj1 (C5_results_file Sample.mixed_env "core" Sample.example_records
                  output_dir (mkState 1 0 [EvMkdir output_dir])) _ _
           (fsub Sample.mixed_env (clock Sample.mixed_env 2)
              (clock Sample.mixed_env 1))).
  vm_compute. reflexivity.
Defined.

Lemma C6_witness :
  length Sample.example_records = length (DictReader Sample.example_lines) /\
  (forall (i : nat) (r : Record_), Sample.example_records !! i = Some r ->
     exists row : gmap string cell,
       DictReader Sample.example_lines !! i = Some row /\
       row_to_record row = Ok r) /\
  (Ok tt = Ok tt ->
   submissions (trace (main Sample.mixed_env initial).1) =
     [("core", Sample.example_records);
      ("advanced", take 100 Sample.example_records);
      ("powerhouse", take 10 Sample.example_records)]) /\
  (exists k : nat,
     submissions (trace (main Sample.mixed_env initial).1) =
       take (S k)
         [("core", Sample.example_records);
          ("advanced", take 100 Sample.example_records);
          ("powerhouse", take 10 Sample.example_records)]) /\
  length (take 100 Sample.example_records) =
    (100 `min` length (DictReader Sample.example_lines))%nat /\
  length (take 10 Sample.example_records) =
    (10 `min` length (DictReader Sample.example_lines))%nat.
Proof.
  apply (C6_batches Sample.mixed_env Sample.example_lines
           Sample.example_records (main Sample.mixed_env initial).1 (Ok tt));
    vm_compute; reflexivity.
Defined.

(** ** Missing fields *)

Lemma traverse_first_raise {A B : Type} (f : A -> result B) (l : list A)
    (i : nat) (x : A) (e : exn) :
  l !! i = Some x ->
  f x = Raise e ->
  (forall (j : nat) (x' : A), (j < i)%nat -> l !! j = Some x' ->
     exists y : B, f x' = Ok y) ->
  traverse f l = Raise e.
Proof.
  revert i. induction l as [|a l IH]; intros i Hi Hx Hbefore.
  - destruct i; discriminate.
  - destruct i as [|i]; simpl in Hi.
    + inversion Hi; subst. simpl. now rewrite Hx.
    + destruct (Hbefore 0%nat a) as [y Hy]; [lia | reflexivity |].
      simpl. rewrite Hy. simpl.
      rewrite (IH i Hi Hx); [reflexivity|].
      intros j x' Hj Hl. apply (Hbefore (S j) x'); [lia | exact Hl].
Qed.

(** C8 (as stated, refuted).  Under the header [Name, Website] the data line
    [foo] gives a row with no [Account Owner] field whose [Website] is
    [None]: the loader fails, but on [None.replace], with an
    [AttributeError] and not with the error of a missing field. *)
Lemma C8_counterexample :
  DictReader Sample.short_lines = [Sample.short_row] /\
  Sample.short_row !! "Account Owner" = None /\
  Sample.short_row !! "Website" = Some None /\
  row_to_record Sample.short_row = Raise (AttributeError "replace") /\
  load_companies {[ input_file := Sample.short_lines ]} input_file None
    = Raise (AttributeError "replace").
Proof. repeat split; vm_compute; reflexivity. Qed.

(** C8 (amended).  A row makes the Record Loader fail with the error of a
    missing field ([KeyError]) if and only if it lacks the field [Website],
    or its [Website] is a string and it lacks the field [Account Owner].
    The failure of the first row that fails is not caught: it ends the run
    before any batch is posted or any file is written. *)
Theorem C8_missing_field (row : gmap string cell) :
  (row_to_record row = Raise (KeyError "Website") <-> row !! "Website" = None) /\
  (row_to_record row = Raise (KeyError "Account Owner") <->
   (exists w : string, row !! "Website" = Some (Some w)) /\
   row !! "Account Owner" = None) /\
  (forall key : string,
     row_to_record row = Raise (KeyError key) ->
     key = "Website" \/ key = "Account Owner") /\
  (forall (env : Env) (lines : list (list string)) (i : nat) (e : exn),
     files env !! input_file = Some lines ->
     DictReader lines !! i = Some row ->
     row_to_record row = Raise e ->
     (forall (j : nat) (row' : gmap string cell),
        (j < i)%nat -> DictReader lines !! j = Some row' ->
        exists r : Record_, row_to_record row' = Ok r) ->
     main env initial = (mkState 0 0 [EvMkdir output_dir], Raise e)).
Proof.
  unfold row_to_record, getitem.
  split; [|split; [|split]].
  - destruct (row !! "Website") as [[w|]|]; simpl.
    + destruct (row !! "Account Owner"); simpl; split; discriminate.
    + split; discriminate.
    + split; reflexivity.
  - destruct (row !! "Website") as [[w|]|]; simpl.
    + destruct (row !! "Account Owner"); simpl.
      * split; [discriminate|]. intros [_ H]; discriminate.
      * split; [eauto|reflexivity].
    + split; [discriminate|]. intros [[w H] _]; discriminate.
    + split; [discriminate|]. intros [[w H] _]; discriminate.
  - intros key. destruct (row !! "Website") as [[w|]|]; simpl.
    + destruct (row !! "Account Owner"); simpl; inversion 1; auto.
    + discriminate.
    + inversion 1; auto.
  - intros env lines i e Hf Hrow Hraise Hbefore.
    apply main_load_fails.
    rewrite (load_companies_traverse _ _ None _ Hf). simpl.
    rewrite firstn_all.
    apply (traverse_first_raise row_to_record _ i row e Hrow Hraise Hbefore).
Qed.

Lemma C8_witness :
  main Sample.ownerless_env initial =
    (mkState 0 0 [EvMkdir output_dir], Raise (KeyError "Account Owner")).
Proof.
  apply (proj2 (proj2 (proj2
           (C8_missing_field (dict_row ["Website"] ["a.com"]))))
           Sample.ownerless_env Sample.ownerless_lines 0%nat
           (KeyError "Account Owner")).
  - vm_compute. reflexivity.
  - vm_compute. reflexivity.
  - vm_compute. reflexivity.
  - intros j row' Hj. lia.
Defined.
(** * Further properties *)

(** ** Record Loader: limits and blank lines *)

Lemma traverse_take {A B : Type} (f : A -> result B) (l : list A)
    (ys : list B) (k : nat) :
  traverse f l = Ok ys -> traverse f (take k l) = Ok (take k ys).
Proof.
  revert ys k. induction l as [|x l IH]; intros ys k H; simpl in H.
  - inversion H; subst. now rewrite !take_nil.
  - destruct (f x) as [y|e] eqn:Hx; simpl in H; [|discriminate].
    destruct (traverse f l) as [ys'|e] eqn:Hl; simpl in H; [|discriminate].
    inversion H; subst. destruct k as [|k]; [reflexivity|].
    simpl. rewrite Hx. simpl. now rewrite (IH ys' k eq_refl).
Qed.

(** X1.  Without a limit the loader returns one record per non-blank data
    line: the header and the blank lines give no record. *)
Theorem load_one_record_per_data_line (files : gmap string (list (list string)))
    (filename : string) (fieldnames : list string) (rest : list (list string))
    (recs : list Record_) :
  files !! filename = Some (fieldnames :: rest) ->
  load_companies files filename None = Ok recs ->
  length recs = length (List.filter (fun r => negb (is_blank r)) rest).
Proof.
  intros Hf Hl.
  rewrite (load_companies_traverse _ _ None _ Hf) in Hl. simpl in Hl.
  rewrite firstn_all in Hl.
  rewrite (traverse_Ok_length _ _ _ Hl). apply length_map.
Qed.

Lemma load_one_record_per_data_line_witness :
  length [mkRecord "Acme" "acme.io" (Some "Ann");
          mkRecord "B" "b.org" (Some "Bob")] =
  length (List.filter (fun r => negb (is_blank r))
            [["acme.io"; "Ann"]; []; ["b.org"; "Bob"]]).
Proof.
  apply (load_one_record_per_data_line Sample2.blank_files "in.csv"
           Sample.header [["acme.io"; "Ann"]; []; ["b.org"; "Bob"]]);
    vm_compute; reflexivity.
Defined.

(** X2.  A negative limit stops the loop before the first row: the loader
    returns the empty list and no row is looked at, so a row that would
    raise does not. *)
Theorem load_negative_limit (files : gmap string (list (list string)))
    (filename : string) (lines : list (list string)) (n : Z) :
  files !! filename = Some lines ->
  (n < 0)%Z ->
  load_companies files filename (Some n) = Ok [].
Proof.
  intros Hf Hn. rewrite (load_companies_traverse _ _ _ _ Hf). simpl.
  destruct (Z.eqb_spec n 0) as [|_]; [lia|].
  replace (Z.to_nat n) with 0%nat by lia. reflexivity.
Qed.

Lemma load_negative_limit_witness :
  load_companies Sample2.no_website_files "in.csv" (Some (-1)%Z) = Ok [] /\
  load_companies Sample2.no_website_files "in.csv" None
    = Raise (KeyError "Website").
Proof.
  split.
  - apply (load_negative_limit Sample2.no_website_files "in.csv"
             Sample2.no_website_lines (-1)); [vm_compute; reflexivity | lia].
  - vm_compute. reflexivity.
Defined.

(** X3.  Whenever the unlimited load succeeds, loading with a limit [n > 0]
    gives the first [n] records of the unlimited load, and loading with a
    limit [n < 0] gives no record at all (which is not the Python slice
    [[:n]] of a negative [n]): in both cases [take (Z.to_nat n)].  So the
    slices [all_companies[:100]] and [all_companies[:10]] of [main] are what
    [load_companies] returns with the limits 100 and 10. *)
Theorem load_limit_is_slice (files : gmap string (list (list string)))
    (filename : string) (n : Z) (recs : list Record_) :
  load_companies files filename None = Ok recs ->
  n <> 0%Z ->
  load_companies files filename (Some n) = Ok (take (Z.to_nat n) recs).
Proof.
  intros Hl Hn. unfold load_companies in *.
  destruct (files !! filename) as [lines|] eqn:Hf; [|discriminate].
  pose proof (load_companies_traverse files filename None lines Hf) as H0.
  pose proof (load_companies_traverse files filename (Some n) lines Hf) as H1.
  unfold load_companies in H0, H1. rewrite Hf in H0, H1.
  rewrite H1. rewrite H0 in Hl. simpl in Hl. rewrite firstn_all in Hl.
  simpl. destruct (Z.eqb_spec n 0) as [|_]; [contradiction|].
  now apply traverse_take.
Qed.

Lemma load_limit_is_slice_witness :
  load_companies Sample.example_files "in.csv" (Some 1%Z)
  = Ok (take (Z.to_nat 1) Sample.example_records).
Proof.
  apply (load_limit_is_slice Sample.example_files "in.csv" 1
           Sample.example_records); [vm_compute; reflexivity | lia].
Defined.

(** ** Record Loader: the header decides the fields *)

Lemma foldl_insert_cells_None (l : list (string * string))
    (d : gmap string cell) (k : string) :
  foldl (fun d kv => <[kv.1 := Some kv.2]> d) d l !! k = None <->
  d !! k = None /\ ~ In k (map fst l).
Proof.
  revert d. induction l as [|[k0 v0] l IH]; intros d; simpl.
  - tauto.
  - rewrite IH. rewrite lookup_insert_None. simpl. intuition congruence.
Qed.

Lemma foldl_insert_restval_None (l : list string) (d : gmap string cell)
    (k : string) :
  foldl (fun d key => <[key := None]> d) d l !! k = None <->
  d !! k = None /\ ~ In k l.
Proof.
  revert d. induction l as [|k0 l IH]; intros d; simpl.
  - tauto.
  - rewrite IH. rewrite lookup_insert_None. intuition congruence.
Qed.

Lemma map_fst_zip_take {A B : Type} (l : list A) (k : list B) :
  map fst (zip l k) = take (length k) l.
Proof.
  revert k. induction l as [|x l IH]; intros [|y k]; simpl; try reflexivity.
  now rewrite IH.
Qed.

Lemma dict_row_lookup_None (fieldnames row : list string) (k : string) :
  dict_row fieldnames row !! k = None <-> ~ In k fieldnames.
Proof.
  unfold dict_row, dict_zip.
  destruct (Nat.ltb_spec (length fieldnames) (length row)) as [Hlt|Hge].
  - rewrite foldl_insert_cells_None, map_fst_zip_take, lookup_empty.
    rewrite take_ge by lia. tauto.
  - rewrite foldl_insert_restval_None, foldl_insert_cells_None,
      map_fst_zip_take, lookup_empty.
    rewrite <- (take_drop (length row) fieldnames) at 3.
    rewrite in_app_iff. tauto.
Qed.

(** X4.  Every row [DictReader] yields has exactly the names of the header
    as its fields, however many cells its data line has: whether a field is
    missing is decided by the header alone. *)
Theorem row_fields_are_header (fieldnames : list string)
    (rest : list (list string)) (i : nat) (row : gmap string cell)
    (k : string) :
  DictReader (fieldnames :: rest) !! i = Some row ->
  (row !! k = None <-> ~ In k fieldnames).
Proof.
  simpl. intros H. apply list_lookup_fmap_Some in H as (line & -> & _).
  apply dict_row_lookup_None.
Qed.

Lemma row_fields_are_header_witness :
  Sample.short_row !! "Account Owner" = None <->
  ~ In "Account Owner" ["Name"; "Website"].
Proof.
  apply (row_fields_are_header ["Name"; "Website"] [["foo"]] 0).
  vm_compute. reflexivity.
Defined.

(** X5.  A file whose header has no [Website] column and that has a data
    line makes the loader raise [KeyError] on [Website] at its first row. *)
Theorem load_without_website_column (files : gmap string (list (list string)))
    (filename : string) (fieldnames : list string) (rest : list (list string)) :
  files !! filename = Some (fieldnames :: rest) ->
  ~ In "Website" fieldnames ->
  List.filter (fun r => negb (is_blank r)) rest <> [] ->
  load_companies files filename None = Raise (KeyError "Website").
Proof.
  intros Hf Hw Hne. rewrite (load_companies_traverse _ _ None _ Hf). simpl.
  rewrite firstn_all.
  destruct (List.filter _ rest) as [|line data]; [contradiction|].
  assert (row_to_record (dict_row fieldnames line) = Raise (KeyError "Website"))
    as Hrow.
  { unfold row_to_record, getitem.
    now rewrite (proj2 (dict_row_lookup_None fieldnames line "Website") Hw). }
  cbn [map traverse]. now rewrite Hrow.
Qed.

Lemma load_without_website_column_witness :
  load_companies Sample2.no_website_files "in.csv" None
  = Raise (KeyError "Website").
Proof.
  apply (load_without_website_column Sample2.no_website_files "in.csv"
           ["Name"; "Account Owner"] [["Acme"; "Ann"]]).
  - vm_compute. reflexivity.
  - simpl. intros [H|[H|[]]]; discriminate.
  - simpl. discriminate.
Defined.

Lemma foldl_insert_cells_Some (l : list (string * string))
    (d : gmap string cell) (k : string) :
  In k (map fst l) \/ (exists v : string, d !! k = Some (Some v)) ->
  exists v : string,
    foldl (fun d kv => <[kv.1 := Some kv.2]> d) d l !! k = Some (Some v).
Proof.
  revert d. induction l as [|[k0 v0] l IH]; intros d; simpl.
  - intros [[]|H]; exact H.
  - intros [[Hk|Hk]|[v Hv]]; apply IH.
    + right. subst k0. exists v0. apply lookup_insert_eq.
    + now left.
    + right. destruct (decide (k0 = k)) as [->|Hne].
      * exists v0. apply lookup_insert_eq.
      * exists v. now rewrite lookup_insert_ne.
Qed.

(** On a data line with a cell for every column, each field of the header
    is a string. *)
Lemma dict_row_full_line (fieldnames row : list string) (k : string) :
  length fieldnames <= length row ->
  In k fieldnames ->
  exists v : string, dict_row fieldnames row !! k = Some (Some v).
Proof.
  intros Hlen Hk. unfold dict_row.
  assert (exists v : string, dict_zip fieldnames row !! k = Some (Some v)) as Hz.
  { unfold dict_zip. apply foldl_insert_cells_Some. left.
    rewrite map_fst_zip_take, take_ge by lia. exact Hk. }
  destruct (length fieldnames <? length row)%nat; [exact Hz|].
  now rewrite drop_ge by lia.
Qed.

(** X6.  When the header has the columns [Website] and [Account Owner] and
    no data line is shorter than the header, the loader raises nothing: it
    returns one record per data line, each with a string as account owner. *)
Theorem load_complete_file (files : gmap string (list (list string)))
    (filename : string) (fieldnames : list string) (rest : list (list string)) :
  files !! filename = Some (fieldnames :: rest) ->
  In "Website" fieldnames ->
  In "Account Owner" fieldnames ->
  Forall (fun line => line = [] \/ length fieldnames <= length line) rest ->
  exists recs : list Record_,
    load_companies files filename None = Ok recs /\
    length recs = length (List.filter (fun r => negb (is_blank r)) rest) /\
    Forall (fun r => exists owner : string, accountOwner r = Some owner) recs.
Proof.
  intros Hf Hw Ho Hall.
  rewrite (load_companies_traverse _ _ None _ Hf). simpl. rewrite firstn_all.
  clear Hf. induction rest as [|line rest IH]; simpl.
  - exists []. repeat split. constructor.
  - inversion Hall as [|? ? Hline Hrest]; subst.
    destruct (IH Hrest) as (recs & Hrecs & Hlen & Howner).
    destruct line as [|c line]; simpl; [exists recs; auto|].
    destruct Hline as [Hnil|Hlong]; [discriminate|].
    destruct (dict_row_full_line fieldnames (c :: line) "Website" Hlong Hw)
      as [w Hweb].
    destruct (dict_row_full_line fieldnames (c :: line) "Account Owner" Hlong Ho)
      as [o Hown].
    assert (row_to_record (dict_row fieldnames (c :: line)) =
            Ok (mkRecord (company_name w) w (Some o))) as Hrow.
    { unfold row_to_record, getitem. unfold cell in *.
      rewrite Hweb. simpl. now rewrite Hown. }
    rewrite Hrow. simpl. rewrite Hrecs. simpl.
    eexists. split; [reflexivity|]. split; [simpl; now rewrite Hlen|].
    constructor; [now exists o | exact Howner].
Qed.

Lemma load_complete_file_witness :
  exists recs : list Record_,
    load_companies Sample2.blank_files "in.csv" None = Ok recs /\
    length recs = length (List.filter (fun r => negb (is_blank r))
                            [["acme.io"; "Ann"]; []; ["b.org"; "Bob"]]) /\
    Forall (fun r => exists owner : string, accountOwner r = Some owner) recs.
Proof.
  apply (load_complete_file Sample2.blank_files "in.csv" Sample.header
           [["acme.io"; "Ann"]; []; ["b.org"; "Bob"]]).
  - vm_compute. reflexivity.
  - left. reflexivity.
  - right. left. reflexivity.
  - constructor; [right; simpl; lia|].
    constructor; [left; reflexivity|].
    constructor; [right; simpl; lia|]. constructor.
Defined.

(** X17.  A row whose [Website] cell is [None] (its data line is shorter
    than the header, and [DictReader] fills the cells that are not there
    with [None]) makes the loop body fail with [AttributeError] on
    [replace], whether or not the row has an [Account Owner].  When no row
    before it fails, the unlimited load ends with that exception. *)
Theorem load_empty_website_cell (files : gmap string (list (list string)))
    (filename : string) (lines : list (list string)) (i : nat)
    (row : gmap string cell) :
  files !! filename = Some lines ->
  DictReader lines !! i = Some row ->
  row !! "Website" = Some None ->
  (forall (j : nat) (row' : gmap string cell),
     (j < i)%nat -> DictReader lines !! j = Some row' ->
     exists r : Record_, row_to_record row' = Ok r) ->
  row_to_record row = Raise (AttributeError "replace") /\
  load_companies files filename None = Raise (AttributeError "replace").
Proof.
  intros Hf Hrow Hweb Hbefore.
  assert (row_to_record row = Raise (AttributeError "replace")) as Hraise.
  { unfold row_to_record, getitem. unfold cell in *. now rewrite Hweb. }
  split; [exact Hraise|].
  rewrite (load_companies_traverse _ _ None _ Hf). simpl.
  rewrite firstn_all.
  apply (traverse_first_raise row_to_record _ i row _ Hrow Hraise Hbefore).
Qed.

Lemma load_empty_website_cell_witness :
  row_to_record Sample.short_row = Raise (AttributeError "replace") /\
  load_companies {[ "in.csv" := Sample.short_lines ]} "in.csv" None
    = Raise (AttributeError "replace").
Proof.
  apply (load_empty_website_cell {[ "in.csv" := Sample.short_lines ]} "in.csv"
           Sample.short_lines 0 Sample.short_row).
  - vm_compute. reflexivity.
  - vm_compute. reflexivity.
  - vm_compute. reflexivity.
  - intros j row' Hj. lia.
Defined.

(** ** The derived company name *)

Lemma upper_is_dot (c : ascii) :
  Ascii.eqb (PyStr.upper c) "." = Ascii.eqb c ".".
Proof. destruct c as [[] [] [] [] [] [] [] []]; reflexivity. Qed.

Lemma lower_is_dot (c : ascii) :
  Ascii.eqb (PyStr.lower c) "." = Ascii.eqb c ".".
Proof. destruct c as [[] [] [] [] [] [] [] []]; reflexivity. Qed.

Lemma title_from_has_dot (b : bool) (s : string) :
  has_char "." (PyStr.title_from b s) = has_char "." s.
Proof.
  revert b. induction s as [|c s IH]; intros b; simpl; [reflexivity|].
  rewrite IH. destruct b; [now rewrite lower_is_dot | now rewrite upper_is_dot].
Qed.

(** X7.  Whatever the [Website] string, the derived company name contains
    no dot. *)
Theorem company_name_has_no_dot (website : string) :
  has_char "." (company_name website) = false.
Proof.
  unfold company_name, PyStr.title.
  rewrite title_from_has_dot. apply hd_split_has_no_sep.
Qed.

(** The three deletions leave alone a string that holds none of the three
    prefixes. *)
Lemma replaces_absent (s : string) :
  PyStr.contains "https://" s = false ->
  PyStr.contains "http://" s = false ->
  PyStr.contains "www." s = false ->
  PyStr.replace "www." ""
    (PyStr.replace "http://" "" (PyStr.replace "https://" "" s)) = s.
Proof.
  intros H1 H2 H3. unfold PyStr.replace.
  now rewrite (replace_scan_absent _ _ _ H1), (replace_scan_absent _ _ _ H2),
    (replace_scan_absent _ _ _ H3).
Qed.

(** X8.  For a site [s] that holds none of [https://], [http://] and [www.],
    the company name is the title-cased first label of [s], and it is the
    same whether the [Website] is written with a scheme, with [www.], with
    both or with neither. *)
Theorem company_name_ignores_scheme_and_www (s : string) :
  PyStr.contains "https://" s = false ->
  PyStr.contains "http://" s = false ->
  PyStr.contains "www." s = false ->
  company_name s = PyStr.title (hd "" (PyStr.split "." s)) /\
  company_name ("www." +:+ s) = company_name s /\
  company_name ("http://" +:+ s) = company_name s /\
  company_name ("https://" +:+ s) = company_name s /\
  company_name ("http://www." +:+ s) = company_name s /\
  company_name ("https://www." +:+ s) = company_name s.
Proof.
  intros H1 H2 H3.
  assert (forall t : string,
             PyStr.replace "www." ""
               (PyStr.replace "http://" "" (PyStr.replace "https://" "" t)) = s ->
             company_name t = company_name s) as Hsame.
  { intros t Ht. unfold company_name. now rewrite Ht, replaces_absent. }
  split; [unfold company_name; now rewrite replaces_absent|].
  assert (PyStr.contains "https://" ("www." +:+ s) = false) as H1w by exact H1.
  assert (PyStr.contains "http://" ("www." +:+ s) = false) as H2w by exact H2.
  assert (PyStr.contains "https://" ("http://" +:+ s) = false) as H1h by exact H1.
  assert (PyStr.contains "https://" ("http://" +:+ "www." +:+ s) = false) as H1hw
    by exact H1.
  assert (PyStr.replace_scan "www." "" 0 ("www." +:+ s) = s) as Hw.
  { rewrite replace_scan_leading by discriminate.
    apply (replace_scan_absent _ _ _ H3). }
  assert (forall t : string,
             PyStr.replace_scan "http://" "" 0 ("http://" +:+ t)
             = PyStr.replace_scan "http://" "" 0 t) as Hh
    by (intros t; now rewrite replace_scan_leading by discriminate).
  assert (forall t : string,
             PyStr.replace_scan "https://" "" 0 ("https://" +:+ t)
             = PyStr.replace_scan "https://" "" 0 t) as Hhs
    by (intros t; now rewrite replace_scan_leading by discriminate).
  unfold PyStr.replace in Hsame.
  repeat split; apply Hsame.
  - now rewrite (replace_scan_absent _ _ _ H1w), (replace_scan_absent _ _ _ H2w).
  - rewrite (replace_scan_absent _ _ _ H1h), Hh.
    now rewrite (replace_scan_absent _ _ _ H2), (replace_scan_absent _ _ _ H3).
  - rewrite Hhs.
    now rewrite (replace_scan_absent _ _ _ H1), (replace_scan_absent _ _ _ H2),
      (replace_scan_absent _ _ _ H3).
  - change ("http://www." +:+ s) with ("http://" +:+ "www." +:+ s).
    rewrite (replace_scan_absent _ _ _ H1hw), Hh.
    now rewrite (replace_scan_absent _ _ _ H2w).
  - change ("https://www." +:+ s) with ("https://" +:+ "www." +:+ s).
    rewrite Hhs.
    now rewrite (replace_scan_absent _ _ _ H1w), (replace_scan_absent _ _ _ H2w).
Qed.

Lemma company_name_ignores_scheme_and_www_witness :
  company_name "acme.io" = PyStr.title (hd "" (PyStr.split "." "acme.io")) /\
  company_name ("www." +:+ "acme.io") = company_name "acme.io" /\
  company_name ("http://" +:+ "acme.io") = company_name "acme.io" /\
  company_name ("https://" +:+ "acme.io") = company_name "acme.io" /\
  company_name ("http://www." +:+ "acme.io") = company_name "acme.io" /\
  company_name ("https://www." +:+ "acme.io") = company_name "acme.io".
Proof.
  apply (company_name_ignores_scheme_and_www "acme.io"); reflexivity.
Defined.

(** ** Batch Submitter: every outcome of a call *)

(** X9.  A call writes the batch it was given to the payload file of its
    mode, reads the clock and calls [subprocess.run] once, on that batch.
    When [subprocess.run] raises, the call ends there with that exception,
    after one clock reading and with no further file.  When it returns, the
    call reads the clock a second time and writes at most one more file:
    the results file of its own mode. *)
Theorem run_single_pipeline_effects (env : Env) (pipeline_type : string)
    (companies : list Record_) (output_dir : string) (st st' : State)
    (res : result (json * Q)) :
  run_single_pipeline env pipeline_type companies output_dir st = (st', res) ->
  calls st' = S (calls st) /\
  exists extra : list event,
    trace st' =
      (trace st ++
       EvWrite ("/tmp/" +:+ pipeline_type +:+ "_payload.json") (PayloadJson pipeline_type companies)
       :: EvCurl ("/tmp/" +:+ pipeline_type +:+ "_payload.json") pipeline_type companies
       :: extra)%list /\
    match curl env (calls st) pipeline_type companies with
    | Raise e => ticks st' = S (ticks st) /\ extra = [] /\ res = Raise e
    | Ok _ =>
        ticks st' = S (S (ticks st)) /\
        (extra = [] \/
         exists lines : list (list json),
           extra = [EvWrite (output_dir +:+ "/" +:+ pipeline_type +:+ "-pipeline-results.csv") (CsvOut lines)])
    end.
Proof.
  rewrite run_single_pipeline_after_curl. cbv zeta.
  destruct (curl env (calls st) pipeline_type companies) as [r|e].
  2:{ inversion 1; subst; simpl. split; [reflexivity|]. exists []. auto. }
  destruct (returncode r =? 0)%Z.
  2:{ inversion 1; subst; simpl. split; [reflexivity|]. exists []. auto. }
  destruct (json_loads env (stdout r)) as [data|e].
  2:{ destruct e; inversion 1; subst; simpl; (split; [reflexivity|]);
        exists []; auto. }
  intros H.
  destruct (process_cases _ _ _ _ _ _ _ H)
    as [(-> & _) | [(first & rest & -> & _) |
         [(-> & _) | (lines & e & -> & _)]]]; simpl;
    (split; [reflexivity|]).
  - exists []. auto.
  - eexists. split; [rewrite <- app_assoc; reflexivity|].
    split; [reflexivity|]. right. eexists. reflexivity.
  - exists []. auto.
  - eexists. split; [rewrite <- app_assoc; reflexivity|].
    split; [reflexivity|]. right. eexists. reflexivity.
Qed.

Lemma run_single_pipeline_effects_witness :
  calls (run_single_pipeline Sample.binary_env "core" Sample.example_records
           output_dir initial).1 = 1%nat /\
  exists extra : list event,
    trace (run_single_pipeline Sample.binary_env "core"
             Sample.example_records output_dir initial).1 =
      ([] ++
       EvWrite "/tmp/core_payload.json" (PayloadJson "core" Sample.example_records)
       :: EvCurl "/tmp/core_payload.json" "core" Sample.example_records
       :: extra)%list /\
    (ticks (run_single_pipeline Sample.binary_env "core"
              Sample.example_records output_dir initial).1 = 1%nat /\
     extra = [] /\
     @Raise (json * Q) UnicodeDecodeError = Raise UnicodeDecodeError).
Proof.
  apply (run_single_pipeline_effects Sample.binary_env "core"
           Sample.example_records output_dir initial _
           (Raise UnicodeDecodeError)).
  vm_compute. reflexivity.
Defined.

(** X10.  Once [subprocess.run] has returned and [json.loads] has parsed the
    body, an exception that a call lets out is never a [KeyError] for a
    string key, so never one for [results], and never an [IndexError]: the
    test [in] guards the lookup of [results] and the truth test guards the
    index [0]. *)
Theorem run_single_pipeline_exceptions (env : Env) (pipeline_type : string)
    (companies : list Record_) (output_dir : string) (st st' : State)
    (r : CompletedProcess) (data : json) (e : exn) :
  curl env (calls st) pipeline_type companies = Ok r ->
  json_loads env (stdout r) = Ok data ->
  run_single_pipeline env pipeline_type companies output_dir st
    = (st', Raise e) ->
  (forall key : string, e <> KeyError key) /\ e <> IndexError.
Proof.
  intros Hcurl Hjson. rewrite run_single_pipeline_after_curl. cbv zeta.
  rewrite Hcurl. destruct (returncode r =? 0)%Z; [|discriminate].
  rewrite Hjson. intros H.
  destruct (process_cases _ _ _ _ _ _ _ H)
    as [(_ & results & H' & _) | [(first & rest & _ & H' & _) |
         [(_ & H') | (lines & e' & _ & H' & [He | [He | He]])]]];
    try discriminate; inversion H'; subst; split; try intros key;
    discriminate.
Qed.

Lemma run_single_pipeline_exceptions_witness :
  (forall key : string, TypeError <> KeyError key) /\ TypeError <> IndexError.
Proof.
  apply (run_single_pipeline_exceptions Sample.malformed_env "core"
           Sample.example_records output_dir initial
           (run_single_pipeline Sample.malformed_env "core"
              Sample.example_records output_dir initial).1
           (mkCompleted 0 Sample.five_body "")
           (JObj [("results", JInt 5)]));
    vm_compute; reflexivity.
Defined.


Lemma row_fits_cells_length (fieldnames : list string) (row : json) :
  row_fits fieldnames row = true ->
  length (csv_cells fieldnames row) = length fieldnames.
Proof.
  destruct row as [| | | | | |pairs]; simpl; try discriminate.
  intros _. apply length_map.
Qed.

(** X11.  A call that returns a non-empty result returns a list of objects
    in which no row has a key that the first row lacks, and has written it
    to a rectangular file: the header and every data line have one cell per
    key of the first row. *)
Theorem run_single_pipeline_returns_uniform_rows (env : Env)
    (pipeline_type : string) (companies : list Record_) (output_dir : string)
    (st st' : State) (results : json) (elapsed : Q) (n : nat) :
  run_single_pipeline env pipeline_type companies output_dir st
    = (st', Ok (results, elapsed)) ->
  py_len results = Ok (S n) ->
  exists (first : list (string * json)) (rest : list json)
         (lines : list (list json)),
    results = JArr (JObj first :: rest) /\
    forallb (row_fits (dict_keys first)) (JObj first :: rest) = true /\
    last (trace st') =
      Some (EvWrite (output_dir +:+ "/" +:+ pipeline_type +:+ "-pipeline-results.csv") (CsvOut lines)) /\
    length lines = S (S n) /\
    Forall (fun line => length line = length (dict_keys first)) lines.
Proof.
  intros Hrun Hlen.
  destruct (run_single_pipeline_cases _ _ _ _ _ _ _ Hrun)
    as (_ & [(e0 & _ & _ & _ & H) | [(_ & _ & results0 & H & Hlen0) |
         [(_ & first & rest & Htr & H & Hfits) | [(_ & _ & e0 & H) |
           (_ & lines & e' & _ & H & _)]]]]); try discriminate.
  - inversion H; subst. rewrite Hlen0 in Hlen. discriminate.
  - inversion H; subst. exists first, rest. eexists.
    split; [reflexivity|]. split; [exact Hfits|].
    split; [rewrite Htr, last_app; reflexivity|].
    simpl in Hlen. inversion Hlen; subst.
    split; [simpl; now rewrite length_map|].
    constructor; [apply length_map|].
    apply List.Forall_forall. intros line Hin.
    apply in_map_iff in Hin as (row & <- & Hrow).
    apply row_fits_cells_length.
    apply (proj1 (forallb_forall _ _) Hfits row Hrow).
Qed.

Lemma run_single_pipeline_returns_uniform_rows_witness :
  exists (first : list (string * json)) (rest : list json)
         (lines : list (list json)),
    JArr [JObj [("company", JStr "Example"); ("score", JInt 7)];
          JObj [("company", JStr "Acme")]] = JArr (JObj first :: rest) /\
    forallb (row_fits (dict_keys first)) (JObj first :: rest) = true /\
    last (trace (run_single_pipeline Sample.mixed_env "core"
                   Sample.example_records output_dir initial).1) =
      Some (EvWrite (output_dir +:+ "/core-pipeline-results.csv") (CsvOut lines)) /\
    length lines = 3%nat /\
    Forall (fun line => length line = length (dict_keys first)) lines.
Proof.
  apply (run_single_pipeline_returns_uniform_rows Sample.mixed_env "core"
           Sample.example_records output_dir initial _ _
           (fsub Sample.mixed_env (clock Sample.mixed_env 1)
              (clock Sample.mixed_env 0)) 1);
    vm_compute; reflexivity.
Defined.

Lemma existsb_eqb_In (k : string) (l : list string) :
  In k l -> existsb (String.eqb k) l = true.
Proof.
  intros H. apply existsb_exists. exists k. split; [exact H|].
  apply String.eqb_refl.
Qed.

(** The first row fits the header made of its own keys. *)
Lemma row_fits_self (first : list (string * json)) :
  row_fits (dict_keys first) (JObj first) = true.
Proof.
  simpl. apply forallb_forall. intros k Hk. now apply existsb_eqb_In.
Qed.

Lemma forallb_false_filter {A : Type} (f : A -> bool) (l : list A) :
  forallb f l = false -> List.filter (fun x => negb (f x)) l <> [].
Proof.
  induction l as [|x l IH]; simpl; [discriminate|].
  destruct (f x); simpl; [exact IH | discriminate].
Qed.

Lemma dict_to_list_not_fits (fieldnames : list string) (row : json) :
  row_fits fieldnames row = false ->
  exists e : exn,
    dict_to_list fieldnames row = Raise e /\
    (e = AttributeError "keys" \/ e = ValueError).
Proof.
  unfold dict_to_list.
  destruct row as [| | | | | |pairs]; simpl;
    try (intros _; eexists; split; [reflexivity | now left]).
  intros H. apply forallb_false_filter in H.
  destruct (List.filter _ (dict_keys pairs)); [contradiction|].
  eexists. split; [reflexivity | now right].
Qed.

Lemma forallb_filter_negb_nil {A : Type} (f : A -> bool) (l : list A) :
  forallb f l = true -> List.filter (fun x => negb (f x)) l = [].
Proof.
  induction l as [|x l IH]; simpl; [reflexivity|].
  destruct (f x); simpl; [exact IH | discriminate].
Qed.

Lemma dict_to_list_fits (fieldnames : list string) (row : json) :
  row_fits fieldnames row = true ->
  dict_to_list fieldnames row = Ok (csv_cells fieldnames row).
Proof.
  unfold dict_to_list.
  destruct row as [| | | | | |pairs]; simpl; try discriminate.
  intros H. now rewrite (forallb_filter_negb_nil _ _ H).
Qed.

Lemma writerows_stops (fieldnames : list string) (good : list json)
    (bad : json) (rest : list json) (written : list (list json)) :
  forallb (row_fits fieldnames) good = true ->
  row_fits fieldnames bad = false ->
  exists e : exn,
    writerows fieldnames (good ++ bad :: rest) written =
      ((written ++ map (csv_cells fieldnames) good)%list, Raise e) /\
    (e = AttributeError "keys" \/ e = ValueError).
Proof.
  intros Hgood Hbad. revert written.
  induction good as [|row good IH]; intros written; simpl.
  - destruct (dict_to_list_not_fits _ _ Hbad) as (e & -> & He).
    exists e. now rewrite app_nil_r.
  - simpl in Hgood. apply andb_true_iff in Hgood as [Hrow Hgood].
    rewrite (dict_to_list_fits _ _ Hrow).
    destruct (IH Hgood (written ++ [csv_cells fieldnames row])%list)
      as (e & -> & He).
    exists e. now rewrite <- app_assoc.
Qed.

(** X12.  When a row after the first is not an object, or has a key the
    first row lacks, the call raises ([AttributeError] or [ValueError]) and
    leaves a results file behind that holds the header and the rows before
    that one. *)
Theorem run_single_pipeline_leaves_partial_file (env : Env)
    (pipeline_type : string) (companies : list Record_) (output_dir : string)
    (st : State) (r : CompletedProcess) (pairs first : list (string * json))
    (good : list json) (bad : json) (rest : list json) :
  curl env (calls st) pipeline_type companies = Ok r ->
  returncode r = 0%Z ->
  json_loads env (stdout r) = Ok (JObj pairs) ->
  dict_get pairs "results" = Some (JArr (JObj first :: good ++ bad :: rest)) ->
  forallb (row_fits (dict_keys first)) good = true ->
  row_fits (dict_keys first) bad = false ->
  exists e : exn,
    run_single_pipeline env pipeline_type companies output_dir st =
      (mkState (S (S (ticks st))) (S (calls st))
         (trace st ++
          [EvWrite ("/tmp/" +:+ pipeline_type +:+ "_payload.json") (PayloadJson pipeline_type companies);
           EvCurl ("/tmp/" +:+ pipeline_type +:+ "_payload.json") pipeline_type companies;
           EvWrite (output_dir +:+ "/" +:+ pipeline_type +:+ "-pipeline-results.csv")
             (CsvOut (map JStr (dict_keys first)
                      :: map (csv_cells (dict_keys first)) (JObj first :: good)))]),
       Raise e) /\
    (e = AttributeError "keys" \/ e = ValueError).
Proof.
  intros Hcurl Hrc Hjson Hget Hgood Hbad.
  destruct (writerows_stops (dict_keys first) (JObj first :: good) bad rest
              [map JStr (dict_keys first)]) as (e & Hw & He).
  { cbn [forallb]. now rewrite row_fits_self, Hgood. }
  { exact Hbad. }
  exists e. split; [|exact He].
  rewrite run_single_pipeline_after_curl. cbv zeta.
  rewrite Hcurl, Hrc, Hjson. cbn [Z.eqb].
  unfold process. run_M. simpl. rewrite Hget.
  rewrite bool_decide_eq_true_2 by eauto. simpl.
  unfold csv_lines. cbn [py_getitem_0 py_keys py_iter].
  change (JObj first :: good ++ bad :: rest)
    with ((JObj first :: good) ++ bad :: rest)%list.
  rewrite Hw. simpl. now rewrite <- !app_assoc.
Qed.

Lemma run_single_pipeline_leaves_partial_file_witness :
  exists e : exn,
    run_single_pipeline Sample2.ragged_env "core" Sample.example_records
      output_dir initial =
      (mkState 2 1
         ([] ++
          [EvWrite "/tmp/core_payload.json" (PayloadJson "core" Sample.example_records);
           EvCurl "/tmp/core_payload.json" "core" Sample.example_records;
           EvWrite (output_dir +:+ "/core-pipeline-results.csv")
             (CsvOut (map JStr (dict_keys [("company", JStr "Example")])
                      :: map (csv_cells (dict_keys [("company", JStr "Example")]))
                           (JObj [("company", JStr "Example")] :: [])))]),
       Raise e) /\
    (e = AttributeError "keys" \/ e = ValueError).
Proof.
  apply (run_single_pipeline_leaves_partial_file Sample2.ragged_env "core"
           Sample.example_records output_dir initial
           (mkCompleted 0 Sample2.ragged_body "") Sample2.ragged_pairs
           [("company", JStr "Example")] []
           (JObj [("company", JStr "Acme"); ("score", JInt 7)]) []);
    vm_compute; reflexivity.
Defined.

(** ** Run Orchestrator: what a run writes *)

Lemma written_paths_app (tr1 tr2 : list event) :
  written_paths (tr1 ++ tr2) = (written_paths tr1 ++ written_paths tr2)%list.
Proof. unfold written_paths. apply omap_app. Qed.

(** The paths a call adds: its payload file, then its results file or
    nothing. *)
Lemma run_single_pipeline_paths (env : Env) (pipeline_type : string)
    (companies : list Record_) (output_dir : string) (st st' : State)
    (res : result (json * Q)) :
  run_single_pipeline env pipeline_type companies output_dir st = (st', res) ->
  written_paths (trace st') =
    (written_paths (trace st) ++ [temp_file_of pipeline_type])%list \/
  written_paths (trace st') =
    (written_paths (trace st) ++
     [temp_file_of pipeline_type; csv_file_of output_dir pipeline_type])%list.
Proof.
  intros Hrun.
  destruct (run_single_pipeline_cases _ _ _ _ _ _ _ Hrun)
    as (_ & [(e & _ & _ & -> & _) | [(_ & -> & _) |
         [(_ & first & rest & -> & _) | [(_ & -> & _) |
           (_ & lines & e & -> & _)]]]]);
    rewrite written_paths_app; [left | left | right | left | right];
    reflexivity.
Qed.

(** X13.  A run that ends with an exception has not written
    [summary.json]. *)
Theorem main_failure_writes_no_summary (env : Env) (st' : State) (e : exn) :
  main env initial = (st', Raise e) ->
  ~ In (output_dir +:+ "/summary.json") (written_paths (trace st')).
Proof.
  intros Hmain.
  destruct (load_companies (files env) input_file None) as [recs|e0] eqn:Hload.
  2:{ rewrite (main_load_fails env e0 Hload) in Hmain.
      inversion Hmain; subst. simpl. tauto. }
  rewrite (main_steps env recs Hload) in Hmain.
  set (st0 := mkState 1 0 [EvMkdir output_dir]) in Hmain.
  assert (written_paths (trace st0) = []) as H0 by reflexivity.
  destruct (run_single_pipeline env "core" recs output_dir st0)
    as [st1 r1] eqn:H1.
  pose proof (run_single_pipeline_paths _ _ _ _ _ _ _ H1) as P1.
  destruct (run_single_pipeline_shape _ _ _ _ _ _ _ H1) as (_ & _ & Hr1).
  rewrite H0 in P1.
  destruct r1 as [[r1 e1]|e1].
  2:{ inversion Hmain; subst.
      destruct P1 as [-> | ->]; simpl; intuition discriminate. }
  destruct (Hr1 _ _ eq_refl) as (_ & [n1 Hn1] & _).
  destruct (run_single_pipeline env "advanced" (take 100 recs) output_dir st1)
    as [st2 r2] eqn:H2.
  pose proof (run_single_pipeline_paths _ _ _ _ _ _ _ H2) as P2.
  destruct (run_single_pipeline_shape _ _ _ _ _ _ _ H2) as (_ & _ & Hr2).
  destruct r2 as [[r2 e2]|e2].
  2:{ inversion Hmain; subst.
      destruct P1 as [P1 | P1], P2 as [-> | ->]; rewrite P1; simpl;
        intuition discriminate. }
  destruct (Hr2 _ _ eq_refl) as (_ & [n2 Hn2] & _).
  destruct (run_single_pipeline env "powerhouse" (take 10 recs) output_dir st2)
    as [st3 r3] eqn:H3.
  pose proof (run_single_pipeline_paths _ _ _ _ _ _ _ H3) as P3.
  destruct (run_single_pipeline_shape _ _ _ _ _ _ _ H3) as (_ & _ & Hr3).
  destruct r3 as [[r3 e3]|e3].
  2:{ inversion Hmain; subst.
      destruct P1 as [P1 | P1], P2 as [P2 | P2], P3 as [-> | ->];
        rewrite P2, P1; simpl; intuition discriminate. }
  destruct (Hr3 _ _ eq_refl) as (_ & [n3 Hn3] & _).
  rewrite (finish_Ok env _ _ _ _ n1 n2 n3 st3 Hn1 Hn2 Hn3) in Hmain.
  discriminate.
Qed.

Lemma main_failure_writes_no_summary_witness :
  ~ In (output_dir +:+ "/summary.json")
       (written_paths (trace (main Sample.malformed_env initial).1)).
Proof.
  apply (main_failure_writes_no_summary Sample.malformed_env
           (main Sample.malformed_env initial).1 TypeError).
  vm_compute. reflexivity.
Defined.

(** X14.  When the input file does not exist the run stops on
    [FileNotFoundError] right after making the output directory: no clock
    reading, no [curl] call, no file written. *)
Theorem main_without_input_file (env : Env) :
  files env !! input_file = None ->
  main env initial =
    (mkState 0 0 [EvMkdir output_dir], Raise (FileNotFoundError input_file)).
Proof.
  intros Hf. apply main_load_fails. unfold load_companies. now rewrite Hf.
Qed.

Lemma main_without_input_file_witness :
  main Sample2.no_file_env initial =
    (mkState 0 0 [EvMkdir output_dir], Raise (FileNotFoundError input_file)).
Proof.
  apply (main_without_input_file Sample2.no_file_env). reflexivity.
Defined.

(** X15.  An input file without data lines does not stop the run: the
    [core] batch is posted all the same, with no company in it, and so are
    the batches after it. *)
Theorem main_with_empty_input (env : Env) (lines : list (list string))
    (st' : State) (res : result unit) :
  files env !! input_file = Some lines ->
  DictReader lines = [] ->
  main env initial = (st', res) ->
  (exists k : nat,
     submissions (trace st') =
       take (S k) [("core", []); ("advanced", []); ("powerhouse", [])]) /\
  (res = Ok tt ->
   submissions (trace st') =
     [("core", []); ("advanced", []); ("powerhouse", [])]).
Proof.
  intros Hf Hrows Hmain.
  assert (load_companies (files env) input_file None = Ok []) as Hload.
  { rewrite (load_companies_traverse _ _ None _ Hf), Hrows. reflexivity. }
  apply (main_submissions env [] st' res Hload Hmain).
Qed.

Lemma main_with_empty_input_witness :
  (exists k : nat,
     submissions (trace (main Sample2.header_only_env initial).1) =
       take (S k) [("core", []); ("advanced", []); ("powerhouse", [])]) /\
  (Ok tt = Ok tt ->
   submissions (trace (main Sample2.header_only_env initial).1) =
     [("core", []); ("advanced", []); ("powerhouse", [])]).
Proof.
  apply (main_with_empty_input Sample2.header_only_env [Sample.header]
           (main Sample2.header_only_env initial).1 (Ok tt));
    vm_compute; reflexivity.
Defined.

(** The paths a call that returns adds, by the length of what it returns. *)
Lemma run_single_pipeline_Ok_paths (env : Env) (pipeline_type : string)
    (companies : list Record_) (output_dir : string) (st st' : State)
    (results : json) (elapsed : Q) :
  run_single_pipeline env pipeline_type companies output_dir st
    = (st', Ok (results, elapsed)) ->
  exists n : nat,
    py_len results = Ok n /\
    written_paths (trace st') =
      (written_paths (trace st) ++
       temp_file_of pipeline_type
       :: (if (0 <? n)%nat then [csv_file_of output_dir pipeline_type] else []))%list.
Proof.
  intros Hrun.
  destruct (run_single_pipeline_cases _ _ _ _ _ _ _ Hrun)
    as (_ & [(e0 & _ & _ & _ & H) | [(_ & Htr & results0 & H & Hlen0) |
         [(_ & first & rest & Htr & H & _) | [(_ & _ & e0 & H) |
           (_ & lines & e' & _ & H & _)]]]]); try discriminate;
    inversion H; subst; rewrite Htr, written_paths_app.
  - exists 0%nat. split; [exact Hlen0 | reflexivity].
  - exists (S (length rest)). split; reflexivity.
Qed.

(** X16.  In a run that ends normally, [summary.json] is the last file
    written, and for each mode the results file is among the files written
    if and only if the count the summary records for that mode is not
    zero. *)
Theorem main_results_files_match_summary (env : Env) (st' : State) :
  main env initial = (st', Ok tt) ->
  exists s : Summary,
    last (trace st') =
      Some (EvWrite (output_dir +:+ "/summary.json") (SummaryJson s)) /\
    (In (output_dir +:+ "/core-pipeline-results.csv") (written_paths (trace st'))
     <-> (0 < core s)%nat) /\
    (In (output_dir +:+ "/advanced-pipeline-results.csv") (written_paths (trace st'))
     <-> (0 < advanced s)%nat) /\
    (In (output_dir +:+ "/powerhouse-pipeline-results.csv") (written_paths (trace st'))
     <-> (0 < powerhouse s)%nat).
Proof.
  intros Hmain.
  destruct (load_companies (files env) input_file None) as [recs|e] eqn:Hload;
    [|rewrite (main_load_fails env e Hload) in Hmain; discriminate].
  rewrite (main_steps env recs Hload) in Hmain.
  set (st0 := mkState 1 0 [EvMkdir output_dir]) in Hmain.
  assert (written_paths (trace st0) = []) as H0 by reflexivity.
  destruct (run_single_pipeline env "core" recs output_dir st0)
    as [st1 [[r1 e1]|e]] eqn:H1; [|discriminate].
  destruct (run_single_pipeline_Ok_paths _ _ _ _ _ _ _ _ H1) as (n1 & Hn1 & P1).
  destruct (run_single_pipeline env "advanced" (take 100 recs) output_dir st1)
    as [st2 [[r2 e2]|e]] eqn:H2; [|discriminate].
  destruct (run_single_pipeline_Ok_paths _ _ _ _ _ _ _ _ H2) as (n2 & Hn2 & P2).
  destruct (run_single_pipeline env "powerhouse" (take 10 recs) output_dir st2)
    as [st3 [[r3 e3]|e]] eqn:H3; [|discriminate].
  destruct (run_single_pipeline_Ok_paths _ _ _ _ _ _ _ _ H3) as (n3 & Hn3 & P3).
  rewrite (finish_Ok env _ _ _ _ n1 n2 n3 st3 Hn1 Hn2 Hn3) in Hmain.
  injection Hmain as Hst. subst st'. cbn [trace].
  eexists. split; [apply last_snoc|]. cbn [core advanced powerhouse].
  rewrite written_paths_app, P3, P2, P1, H0.
  destruct n1 as [|n1], n2 as [|n2], n3 as [|n3]; simpl;
    repeat split; intros H; try lia; try (intuition discriminate); auto 12.
Qed.

Lemma main_results_files_match_summary_witness :
  exists s : Summary,
    last (trace (main Sample.mixed_env initial).1) =
      Some (EvWrite (output_dir +:+ "/summary.json") (SummaryJson s)) /\
    (In (output_dir +:+ "/core-pipeline-results.csv")
        (written_paths (trace (main Sample.mixed_env initial).1))
     <-> (0 < core s)%nat) /\
    (In (output_dir +:+ "/advanced-pipeline-results.csv")
        (written_paths (trace (main Sample.mixed_env initial).1))
     <-> (0 < advanced s)%nat) /\
    (In (output_dir +:+ "/powerhouse-pipeline-results.csv")
        (written_paths (trace (main Sample.mixed_env initial).1))
     <-> (0 < powerhouse s)%nat).
Proof.
  apply (main_results_files_match_summary Sample.mixed_env
           (main Sample.mixed_env initial).1).
  vm_compute. reflexivity.
Defined.

